(** * Rochester_db_gen.py: a PubMed harvesting pipeline

    A shallow embedding of [src/Rochester_db_gen.py] and the properties its
    specification states about it.

    The program is a sequential script: it pages through the ESearch endpoint
    ([get_pmids]), slices the identifiers into batches of 200, fetches each
    batch from EFetch ([fetch_details]), and stores one row per
    [PubmedArticle] element with [INSERT OR IGNORE] ([parse_articles],
    [insert_article]).

    Modelling choices.
    - Python values that come out of [r.json()] are the inductive [json];
      Python exceptions are the enumeration [exn]; a fallible builtin returns
      [exn + A].
    - The two remote endpoints are functions of the request parameters that
      vary (the query string is a constant of the run).  The body of a
      response is kept in decoded form: [None] stands for a body the decoder
      ([r.json()], [ET.fromstring]) rejects.
    - Effects are threaded through a state-and-error monad [M] over [world]:
      the SQLite table and the trace of requests, pauses and insertions.
    - [while True] is a loop with fuel; running out of fuel is the distinct
      outcome [OutOfFuel], never confused with a returned value.
    - An XML document is the tree [ET.fromstring] builds; path queries are
      evaluated as ElementPath does, one step after the other: the matches
      of a path with several steps come parent by parent.
    - The table is the list of its rows in insertion order, with SQLite's
      [INSERT OR IGNORE] on a [TEXT PRIMARY KEY] column. *)

From Stdlib Require Import ZArith List String Ascii Bool Lia Arith DecimalString.
Import ListNotations.

#[local] Open Scope string_scope.
#[local] Open Scope list_scope.
#[local] Open Scope Z_scope.
#[local] Set Warnings "-register-all".

(* ------------------------------------------------------------------------- *)
(** ** Python values and the builtins the script uses *)

Module Py.

(** Exceptions the script can meet.  None of them is caught anywhere. *)
Inductive exn : Type :=
| HTTPError | JSONDecodeError | AttributeError | KeyError
| TypeError | ValueError | ParseError.

(** What [r.json()] can return.  A JSON object becomes a [dict]; its keys
    are unique, kept here in insertion order.  JSON numbers with a fraction
    or an exponent (Python [float]) are left out. *)
Inductive json : Type :=
| JNull
| JBool (b : bool)
| JNum (n : Z)
| JStr (s : string)
| JArr (items : list json)
| JObj (fields : list (string * json)).

Fixpoint lookup {A : Type} (k : string) (kvs : list (string * A)) : option A :=
  match kvs with
  | [] => None
  | (k', v) :: rest => if String.eqb k k' then Some v else lookup k rest
  end.

(** [bool(v)]: the test behind [if not ids]. *)
Definition truthy (v : json) : bool :=
  match v with
  | JNull => false
  | JBool b => b
  | JNum n => negb (n =? 0)
  | JStr s => negb (String.eqb s "")
  | JArr items => match items with [] => false | _ :: _ => true end
  | JObj fields => match fields with [] => false | _ :: _ => true end
  end.

(** [d.get(k, default)]: only a [dict] has the method. *)
Definition get (d : json) (k : string) (default : json) : exn + json :=
  match d with
  | JObj fields =>
      inr (match lookup k fields with Some v => v | None => default end)
  | _ => inl AttributeError
  end.

(** [d[k]] with a string key [k]. *)
Definition getitem (d : json) (k : string) : exn + json :=
  match d with
  | JObj fields =>
      match lookup k fields with Some v => inr v | None => inl KeyError end
  | _ => inl TypeError
  end.

Fixpoint chars (s : string) : list json :=
  match s with
  | EmptyString => []
  | String c s' => JStr (String c EmptyString) :: chars s'
  end.

(** [pmids.extend(ids)]: iterating a list gives its items, a string its
    characters, a dict its keys; the other values are not iterable. *)
Definition extend (pmids : list json) (ids : json) : exn + list json :=
  match ids with
  | JArr items => inr (pmids ++ items)
  | JStr s => inr (pmids ++ chars s)
  | JObj fields => inr (pmids ++ map (fun kv => JStr (fst kv)) fields)
  | _ => inl TypeError
  end.

(** [int(s)] on a string: surrounding white space, an optional sign, then
    decimal digits, single underscores allowed between digits.  CPython's
    default limit of 4300 digits is kept.  Strings are taken to hold ASCII;
    the white space [int] skips there is the tab to carriage return range
    (9..13) and the space (32), not the separators 28..31 that
    [str.isspace] also accepts. *)
Definition is_space (c : ascii) : bool :=
  let n := nat_of_ascii c in
  ((9 <=? n) && (n <=? 13) || (n =? 32))%nat.

Definition is_digit (c : ascii) : bool :=
  let n := nat_of_ascii c in ((48 <=? n) && (n <=? 57))%nat.

Definition digit_val (c : ascii) : Z := Z.of_nat (nat_of_ascii c) - 48.

Fixpoint lstrip (s : string) : string :=
  match s with
  | String c s' => if is_space c then lstrip s' else s
  | EmptyString => EmptyString
  end.

Fixpoint rev_string (s acc : string) : string :=
  match s with
  | EmptyString => acc
  | String c s' => rev_string s' (String c acc)
  end.

Definition strip (s : string) : string :=
  rev_string (lstrip (rev_string (lstrip s) "")) "".

Fixpoint digits (s : string) (acc : Z) (count : nat) (after_digit : bool)
  : option (Z * nat) :=
  match s with
  | EmptyString => if after_digit then Some (acc, count) else None
  | String c s' =>
      if is_digit c then digits s' (10 * acc + digit_val c) (S count) true
      else if Ascii.eqb c "_"
           then (if after_digit then digits s' acc count false else None)
           else None
  end.

Definition max_str_digits : nat := 4300.

Definition int_of_str (s : string) : exn + Z :=
  let s := strip s in
  let '(sign, body) :=
    match s with
    | String c s' =>
        if Ascii.eqb c "-" then (-1, s')
        else if Ascii.eqb c "+" then (1, s') else (1, s)
    | EmptyString => (1, s)
    end in
  match digits body 0 0 false with
  | Some (n, count) =>
      if (count <=? max_str_digits)%nat then inr (sign * n) else inl ValueError
  | None => inl ValueError
  end.

(** [int(v)]. *)
Definition int (v : json) : exn + Z :=
  match v with
  | JNum n => inr n
  | JBool b => inr (if b then 1 else 0)
  | JStr s => int_of_str s
  | _ => inl TypeError
  end.

(** [sep.join(items)] for a list of strings. *)
Definition join (sep : string) (items : list string) : string :=
  String.concat sep items.

(** [",".join(pmids)] on what [get_pmids] returned: every item has to be
    a [str]. *)
Fixpoint strs (items : list json) : exn + list string :=
  match items with
  | [] => inr []
  | JStr s :: rest =>
      match strs rest with inr l => inr (s :: l) | inl e => inl e end
  | _ :: _ => inl TypeError
  end.

(** [x or ""] where [x] is a string or [None]. *)
Definition or_empty (x : option string) : string :=
  match x with
  | Some s => if String.eqb s "" then "" else s
  | None => ""
  end.

(** Truth of a string or [None]: what [filter(None, ...)] and
    [if t.text] keep. *)
Definition nonempty (x : option string) : bool :=
  match x with
  | Some s => negb (String.eqb s "")
  | None => false
  end.

(** The strings among [xs] that are neither [None] nor empty, in order:
    [filter(None, xs)], and the comprehension guard [if t.text]. *)
Definition keep_truthy (xs : list (option string)) : list string :=
  flat_map (fun x => match x with
                     | Some s => if nonempty x then [s] else []
                     | None => []
                     end) xs.

(** [range(start, stop, step)] for a positive step; [stop] iterations are
    always enough. *)
Fixpoint range_loop (fuel start stop step : nat) : list nat :=
  match fuel with
  | O => []
  | S fuel' =>
      if (start <? stop)%nat
      then start :: range_loop fuel' (start + step) stop step
      else []
  end.

Definition range (start stop step : nat) : list nat :=
  range_loop stop start stop step.

(** [l[i:j]] for [0 <= i <= j]. *)
Definition slice {A : Type} (l : list A) (i j : nat) : list A :=
  firstn (j - i) (skipn i l).

End Py.

(* ------------------------------------------------------------------------- *)
(** ** xml.etree.ElementTree: elements and the path queries used *)

Module ET.

Inductive element : Type :=
| Element (tag : string) (attrib : list (string * string))
          (text : option string) (children : list element).

Definition tag (e : element) : string :=
  match e with Element t _ _ _ => t end.
Definition attrib (e : element) : list (string * string) :=
  match e with Element _ a _ _ => a end.
Definition text (e : element) : option string :=
  match e with Element _ _ x _ => x end.
Definition children (e : element) : list element :=
  match e with Element _ _ _ cs => cs end.

(** [e.iter()]: the element, then its subtree in document order. *)
Fixpoint iter (e : element) : list element :=
  match e with
  | Element _ _ _ cs => e :: flat_map iter cs
  end.

(** The proper descendants, in document order. *)
Definition descendants (e : element) : list element :=
  flat_map iter (children e).

(** The steps of a path.  The script's paths are built from ".", "//tag"
    and "/tag" only; predicates, ".." and the wildcard are not modelled. *)
Inductive step : Type :=
| Self
| Child (t : string)
| Descendant (t : string).

Fixpoint split_slash (s : string) : list string :=
  match s with
  | EmptyString => [EmptyString]
  | String c s' =>
      if Ascii.eqb c "/" then EmptyString :: split_slash s'
      else match split_slash s' with
           | [] => [String c EmptyString]
           | t :: ts => String c t :: ts
           end
  end.

(** An empty piece comes from "//": the next piece names descendants. *)
Fixpoint steps_of (pieces : list string) : list step :=
  match pieces with
  | [] => []
  | p :: rest =>
      if String.eqb p "." then Self :: steps_of rest
      else if String.eqb p ""
           then match rest with
                | [] => []
                | t :: rest' => Descendant t :: steps_of rest'
                end
           else Child p :: steps_of rest
  end.

Definition has_tag (t : string) (e : element) : bool := String.eqb (tag e) t.

(** One step maps over the current matches in order, as the generator
    pipeline of ElementPath does. *)
Definition select (st : step) (ctx : list element) : list element :=
  match st with
  | Self => ctx
  | Child t => flat_map (fun e => filter (has_tag t) (children e)) ctx
  | Descendant t => flat_map (fun e => filter (has_tag t) (descendants e)) ctx
  end.

Definition findall (e : element) (path : string) : list element :=
  fold_left (fun ctx st => select st ctx) (steps_of (split_slash path)) [e].

(** [e.findtext(path, default)]: the text of the first match, "" when that
    element has no text, [default] when nothing matches. *)
Definition findtext (e : element) (path : string) (default : option string)
  : option string :=
  match findall e path with
  | [] => default
  | el :: _ => Some (match text el with Some s => s | None => "" end)
  end.

(** [ET.fromstring(xml_data)]: the text is kept as the document it denotes,
    [None] when it is not well-formed. *)
Definition xml_text : Type := option element.

Definition fromstring (xml_data : xml_text) : Py.exn + element :=
  match xml_data with
  | Some root => inr root
  | None => inl Py.ParseError
  end.

End ET.

(* ------------------------------------------------------------------------- *)
(** ** The SQLite table [pubmed_articles] *)

Module Sqlite.

(** The 14-tuple bound to the statement of [insert_article], in column
    order.  [pmid] and [doi] can be [None] (SQL NULL); the script computes
    a [str] for every other column. *)
Record row : Type := Row {
  pmid : option string;
  publication_year : string;
  publication_date : string;
  first_author : string;
  all_authors : string;
  title : string;
  issn : string;
  doi : option string;
  pages : string;
  issue : string;
  volume : string;
  journal : string;
  journal_abbreviation : string;
  abstract : string
}.

(** The rows of the table, in insertion order. *)
Definition table : Type := list row.

Definition has_pmid (k : string) (t : table) : bool :=
  existsb (fun r => match pmid r with
                    | Some k' => String.eqb k' k
                    | None => false
                    end) t.

(** [INSERT OR IGNORE] under [pmid TEXT PRIMARY KEY]: a row whose key is
    already stored is dropped.  The table is an ordinary rowid table, so
    the key column accepts NULL and NULLs never conflict with each
    other. *)
Definition insert_or_ignore (t : table) (r : row) : table :=
  match pmid r with
  | Some k => if has_pmid k t then t else t ++ [r]
  | None => t ++ [r]
  end.

End Sqlite.

(* ------------------------------------------------------------------------- *)
(** ** The outside world and the monad of the script *)

(** A response of [requests.get], with its body already decoded. *)
Record response (B : Type) : Type := Response {
  status_code : Z;
  body : option B
}.
Arguments Response {B} _ _.
Arguments status_code {B} _.
Arguments body {B} _.

(** The remote service, for the fixed query of the run: ESearch answers to
    [retmax] and [retstart], EFetch to the comma-joined [id] parameter. *)
Record remote : Type := Remote {
  esearch : Z -> Z -> response Py.json;
  efetch : string -> response ET.element
}.

(** What the script does to the outside, in the order it does it: the two
    kinds of request, the pauses, and the statements executed on [conn]. *)
Inductive event : Type :=
| Esearch (retmax retstart : Z)
| Efetch (id : string)
| Sleep
| Insert (data : Sqlite.row).

(** The store behind [conn] and the trace of what was done so far. *)
Record world : Type := World {
  db : Sqlite.table;
  trace : list event
}.

Inductive outcome (A : Type) : Type :=
| Return (a : A)
| Raise (e : Py.exn)
| OutOfFuel.
Arguments Return {A} _.
Arguments Raise {A} _.
Arguments OutOfFuel {A}.

Definition M (A : Type) : Type := world -> outcome A * world.

Definition ret {A : Type} (a : A) : M A := fun w => (Return a, w).

Definition bind {A B : Type} (m : M A) (f : A -> M B) : M B :=
  fun w =>
    match m w with
    | (Return a, w') => f a w'
    | (Raise e, w') => (Raise e, w')
    | (OutOfFuel, w') => (OutOfFuel, w')
    end.

Notation "x <- m ;; k" := (bind m (fun x => k))
  (at level 61, m at next level, right associativity).
Notation "m ;;; k" := (bind m (fun _ => k))
  (at level 61, right associativity).

Definition lift {A : Type} (r : Py.exn + A) : M A :=
  fun w => match r with inr a => (Return a, w) | inl e => (Raise e, w) end.

Definition out_of_fuel {A : Type} : M A := fun w => (OutOfFuel, w).

Definition emit (ev : event) : M unit :=
  fun w => (Return tt, World (db w) (trace w ++ [ev])).

(** [time.sleep(0.34)]. *)
Definition sleep : M unit := emit Sleep.

(** [r.raise_for_status()]: 4xx and 5xx raise. *)
Definition raise_for_status {B : Type} (r : response B) : Py.exn + unit :=
  if (400 <=? status_code r) && (status_code r <? 600)
  then inl Py.HTTPError else inr tt.

(** [r.json()]. *)
Definition response_json (r : response Py.json) : Py.exn + Py.json :=
  match body r with Some v => inr v | None => inl Py.JSONDecodeError end.

(** [for x in xs: body(x)]. *)
Fixpoint for_each {A : Type} (xs : list A) (f : A -> M unit) : M unit :=
  match xs with
  | [] => ret tt
  | x :: rest => f x ;;; for_each rest f
  end.

(* ------------------------------------------------------------------------- *)
(** ** The script *)

Section Script.

Variable net : remote.

(** The body of [while True] in [get_pmids], from the loop variables
    [pmids] and [retstart]; [break] is the return of [pmids]. *)
Fixpoint get_pmids_loop (fuel : nat) (retmax : Z)
                        (pmids : list Py.json) (retstart : Z)
  : M (list Py.json) :=
  match fuel with
  | O => out_of_fuel
  | S fuel' =>
      emit (Esearch retmax retstart) ;;;
      let r := esearch net retmax retstart in
      lift (raise_for_status r) ;;;
      data <- lift (response_json r) ;;
      result <- lift (Py.get data "esearchresult" (Py.JObj [])) ;;
      ids <- lift (Py.get result "idlist" (Py.JArr [])) ;;
      if negb (Py.truthy ids) then ret pmids
      else
        pmids' <- lift (Py.extend pmids ids) ;;
        let retstart' := retstart + retmax in
        result' <- lift (Py.getitem data "esearchresult") ;;
        count <- lift (Py.getitem result' "count") ;;
        total <- lift (Py.int count) ;;
        if retstart' >=? total then ret pmids'
        else
          sleep ;;;
          get_pmids_loop fuel' retmax pmids' retstart'
  end.

(** [get_pmids], with the page size as a parameter. *)
Definition get_pmids_with (retmax : Z) (fuel : nat) : M (list Py.json) :=
  get_pmids_loop fuel retmax [] 0.

Definition get_pmids (fuel : nat) : M (list Py.json) :=
  get_pmids_with 200 fuel.

Definition fetch_details (pmids : list Py.json) : M ET.xml_text :=
  ids <- lift (Py.strs pmids) ;;
  let id := Py.join "," ids in
  emit (Efetch id) ;;;
  let r := efetch net id in
  lift (raise_for_status r) ;;;
  sleep ;;;
  ret (body r).

(** [create_table]: [CREATE TABLE IF NOT EXISTS] leaves the rows alone. *)
Definition create_table : M unit := ret tt.

(** [insert_article(conn, data)]; the commit is immediate. *)
Definition insert_article (data : Sqlite.row) : M unit :=
  fun w => (Return tt, World (Sqlite.insert_or_ignore (db w) data)
                             (trace w ++ [Insert data])).

End Script.

(** [el.attrib.get("IdType") == "doi"]. *)
Definition is_doi (el : ET.element) : bool :=
  match Py.lookup "IdType" (ET.attrib el) with
  | Some t => String.eqb t "doi"
  | None => false
  end.

(** The [doi] loop from the current value of [doi]: every matching entry
    overwrites it with its text, [None] included. *)
Definition doi_loop (doi : option string) (entries : list ET.element)
  : option string :=
  fold_left (fun doi el => if is_doi el then ET.text el else doi) entries doi.

Definition doi_of (article : ET.element) : option string :=
  doi_loop (Some "") (ET.findall article ".//ArticleId").

Definition abstract_of (article : ET.element) : string :=
  Py.or_empty
    (Some (Py.join " "
             (Py.keep_truthy
                (map ET.text (ET.findall article ".//Abstract/AbstractText"))))).

(** [" ".join(filter(None, [forename, lastname]))]. *)
Definition author_name (author : ET.element) : string :=
  let lastname := ET.findtext author "LastName" None in
  let forename := ET.findtext author "ForeName" None in
  Py.join " " (Py.keep_truthy [forename; lastname]).

(** The author loop, from the list [authors] built so far. *)
Definition collect_authors (authors : list string) (entries : list ET.element)
  : list string :=
  fold_left
    (fun authors author =>
       let name := author_name author in
       if negb (String.eqb name "") then authors ++ [name] else authors)
    entries authors.

Definition authors_of (article : ET.element) : list string :=
  collect_authors [] (ET.findall article ".//Author").

(** The tuple that the body of the [for article in ...] loop hands to
    [insert_article]. *)
Definition article_row (article : ET.element) : Sqlite.row :=
  let pmid := ET.findtext article ".//PMID" None in
  let journal := Py.or_empty (ET.findtext article ".//Journal/Title" (Some "")) in
  let journal_abbr :=
    Py.or_empty (ET.findtext article ".//Journal/ISOAbbreviation" (Some "")) in
  let issn := Py.or_empty (ET.findtext article ".//Journal/ISSN" (Some "")) in
  let pub_year :=
    Py.or_empty (ET.findtext article ".//JournalIssue/PubDate/Year" None) in
  let pub_date := Py.or_empty (ET.findtext article ".//PubDate/MedlineDate" None) in
  let volume := Py.or_empty (ET.findtext article ".//JournalIssue/Volume" None) in
  let issue := Py.or_empty (ET.findtext article ".//JournalIssue/Issue" None) in
  let pages := Py.or_empty (ET.findtext article ".//Pagination/MedlinePgn" None) in
  let doi := doi_of article in
  let title := Py.or_empty (ET.findtext article ".//ArticleTitle" (Some "")) in
  let abstract_text := abstract_of article in
  let authors := authors_of article in
  let first_author := match authors with a :: _ => a | [] => "" end in
  let all_authors := Py.join ", " authors in
  Sqlite.Row pmid pub_year pub_date first_author all_authors
             title issn doi pages issue volume
             journal journal_abbr abstract_text.

Definition parse_articles (xml_data : ET.xml_text) : M unit :=
  root <- lift (ET.fromstring xml_data) ;;
  for_each (ET.findall root ".//PubmedArticle")
           (fun article => insert_article (article_row article)).

(** The batches of the main block:
    [pmids[i:i+batch_size] for i in range(0, len(pmids), batch_size)]. *)
Definition batches_of {A : Type} (batch_size : nat) (pmids : list A)
  : list (list A) :=
  map (fun i => Py.slice pmids i (i + batch_size))
      (Py.range 0 (List.length pmids) batch_size).

Definition batch_size : nat := 200.

(** The [__main__] block. *)
Definition main (net : remote) (fuel : nat) : M unit :=
  create_table ;;;
  pmids <- get_pmids net fuel ;;
  for_each (batches_of batch_size pmids)
           (fun batch =>
              xml_data <- fetch_details net batch ;;
              parse_articles xml_data).

(* ------------------------------------------------------------------------- *)
(** ** Vocabulary of the statements *)

(** The world after the events [evs] were appended to the trace. *)
Definition logged (w : world) (evs : list event) : world :=
  World (db w) (trace w ++ evs).

(** The offsets of the page requests in a trace, in the order issued. *)
Fixpoint page_requests (tr : list event) : list Z :=
  match tr with
  | [] => []
  | Esearch _ retstart :: rest => retstart :: page_requests rest
  | _ :: rest => page_requests rest
  end.

(** The rows handed to [insert_article] in a trace, in order. *)
Fixpoint inserted (tr : list event) : list Sqlite.row :=
  match tr with
  | [] => []
  | Insert data :: rest => data :: inserted rest
  | _ :: rest => inserted rest
  end.

(** The [id] parameters of the detail requests in a trace, in order. *)
Fixpoint fetch_requests (tr : list event) : list string :=
  match tr with
  | [] => []
  | Efetch id :: rest => id :: fetch_requests rest
  | _ :: rest => fetch_requests rest
  end.

(** A successful search response carrying the total [count] and the page
    [ids]; other members of the body are unconstrained. *)
Definition ok_page (r : response Py.json) (count : Py.json) (ids : list Py.json)
  : Prop :=
  raise_for_status r = inr tt /\
  exists fields result,
    body r = Some (Py.JObj fields) /\
    Py.lookup "esearchresult" fields = Some (Py.JObj result) /\
    Py.lookup "idlist" result = Some (Py.JArr ids) /\
    Py.lookup "count" result = Some count.

(** The trace of [n] page requests of size [retmax] from [retstart]: one
    pause between two consecutive requests. *)
Fixpoint search_trace (retmax retstart : Z) (n : nat) : list event :=
  match n with
  | O => []
  | S O => [Esearch retmax retstart]
  | S n' => Esearch retmax retstart :: Sleep
            :: search_trace retmax (retstart + retmax) n'
  end.

(** [ceil(t / p)] for a positive [p]. *)
Definition ceil_div (t p : Z) : Z := (t + p - 1) / p.

(** The page a search endpoint holding [ids] serves at [retstart]. *)
Definition page_of (retmax : Z) (ids : list Py.json) (retstart : Z)
  : list Py.json :=
  firstn (Z.to_nat retmax) (skipn (Z.to_nat retstart) ids).

(** The pages met by [n] requests of size [retmax] from [retstart]. *)
Definition pages_from (pages : Z -> list Py.json) (retmax retstart : Z) (n : nat)
  : list (list Py.json) :=
  map (fun k => pages (retstart + Z.of_nat k * retmax)) (seq 0 n).

(** Request number [n] from [retstart] is the one the loop of [get_pmids]
    stops at: every earlier page was non-empty with the advanced offset
    still below [total], and the [n]-th page is empty or the advanced offset
    has reached [total]. *)
Definition stops_at (pages : Z -> list Py.json) (retmax total retstart : Z)
                    (n : nat) : Prop :=
  (1 <= n)%nat /\
  (forall k : nat, (S k < n)%nat ->
     pages (retstart + Z.of_nat k * retmax) <> [] /\
     retstart + (Z.of_nat k + 1) * retmax < total) /\
  (pages (retstart + (Z.of_nat n - 1) * retmax) = [] \/
   total <= retstart + Z.of_nat n * retmax).

(** A row whose identifier is NULL. *)
Definition null_pmid (r : Sqlite.row) : bool :=
  match Sqlite.pmid r with None => true | Some _ => false end.

(** A computation that never looks at the world it runs in: its outcome, the
    rows it hands to the store and the events it logs are the same from
    every starting world. *)
Definition oblivious {A : Type} (m : M A) : Prop :=
  exists (o : outcome A) (rows : list Sqlite.row) (evs : list event),
  forall w,
    m w = (o, World (fold_left Sqlite.insert_or_ignore rows (db w))
                    (trace w ++ evs)).

(** The 13 columns other than the identifier. *)
Inductive optional_field : Type :=
| PublicationYear | PublicationDate | FirstAuthor | AllAuthors | Title
| Issn | Doi | Pages | Issue | Volume | Journal | JournalAbbreviation
| Abstract.

(** The value of a column as bound to the statement: a string or NULL. *)
Definition field_value (f : optional_field) (r : Sqlite.row) : option string :=
  match f with
  | PublicationYear => Some (Sqlite.publication_year r)
  | PublicationDate => Some (Sqlite.publication_date r)
  | FirstAuthor => Some (Sqlite.first_author r)
  | AllAuthors => Some (Sqlite.all_authors r)
  | Title => Some (Sqlite.title r)
  | Issn => Some (Sqlite.issn r)
  | Doi => Sqlite.doi r
  | Pages => Some (Sqlite.pages r)
  | Issue => Some (Sqlite.issue r)
  | Volume => Some (Sqlite.volume r)
  | Journal => Some (Sqlite.journal r)
  | JournalAbbreviation => Some (Sqlite.journal_abbreviation r)
  | Abstract => Some (Sqlite.abstract r)
  end.

(** The node a column is read from is absent from the record element; for
    the DOI, no [ArticleId] entry carries the attribute [IdType="doi"]. *)
Definition absent (f : optional_field) (article : ET.element) : Prop :=
  match f with
  | PublicationYear => ET.findall article ".//JournalIssue/PubDate/Year" = []
  | PublicationDate => ET.findall article ".//PubDate/MedlineDate" = []
  | FirstAuthor => ET.findall article ".//Author" = []
  | AllAuthors => ET.findall article ".//Author" = []
  | Title => ET.findall article ".//ArticleTitle" = []
  | Issn => ET.findall article ".//Journal/ISSN" = []
  | Doi => forall el, In el (ET.findall article ".//ArticleId") -> is_doi el = false
  | Pages => ET.findall article ".//Pagination/MedlinePgn" = []
  | Issue => ET.findall article ".//JournalIssue/Issue" = []
  | Volume => ET.findall article ".//JournalIssue/Volume" = []
  | Journal => ET.findall article ".//Journal/Title" = []
  | JournalAbbreviation => ET.findall article ".//Journal/ISOAbbreviation" = []
  | Abstract => ET.findall article ".//Abstract/AbstractText" = []
  end.

(** The name of an author as the specification words it: forename and
    lastname joined with a single space, a part that is absent or empty
    being skipped. *)
Definition spec_author_name (forename lastname : option string) : string :=
  match forename, lastname with
  | Some f, Some l =>
      if String.eqb f "" then l
      else if String.eqb l "" then f
      else (f ++ " " ++ l)%string
  | Some f, None => f
  | None, Some l => l
  | None, None => ""
  end.

Definition named (name : string) : bool := negb (String.eqb name "").

(** The identifiers stored in a table, in row order; NULL keys have none. *)
Definition stored_pmids (t : Sqlite.table) : list string :=
  flat_map (fun r => match Sqlite.pmid r with Some k => [k] | None => [] end) t.

(** A computation whose effect on the store is the replay of the insertions
    it logs, and whose outcome and events are the same from every world. *)
Definition replayable {A : Type} (m : M A) : Prop :=
  exists (o : outcome A) (evs : list event),
  forall w,
    m w = (o, World (fold_left Sqlite.insert_or_ignore (inserted evs) (db w))
                    (trace w ++ evs)).

(** The path a column is read from with [findtext]; the DOI, the authors
    and the abstract are computed by loops of their own. *)
Definition field_path (f : optional_field) : option string :=
  match f with
  | PublicationYear => Some ".//JournalIssue/PubDate/Year"
  | PublicationDate => Some ".//PubDate/MedlineDate"
  | Title => Some ".//ArticleTitle"
  | Issn => Some ".//Journal/ISSN"
  | Pages => Some ".//Pagination/MedlinePgn"
  | Issue => Some ".//JournalIssue/Issue"
  | Volume => Some ".//JournalIssue/Volume"
  | Journal => Some ".//Journal/Title"
  | JournalAbbreviation => Some ".//Journal/ISOAbbreviation"
  | FirstAuthor | AllAuthors | Doi | Abstract => None
  end.

(** The answer of the detail endpoint to a batch of identifiers. *)
Definition batch_response (net : remote) (batch : list string)
  : response ET.element :=
  efetch net (Py.join "," batch).

(** The batch is answered with a success status and a well-formed
    document. *)
Definition batch_ok (net : remote) (batch : list string) : Prop :=
  raise_for_status (batch_response net batch) = inr tt /\
  body (batch_response net batch) <> None.

(** The rows of the record elements in the answer to a batch, in document
    order. *)
Definition records_of (net : remote) (batch : list string) : list Sqlite.row :=
  match body (batch_response net batch) with
  | Some root => map article_row (ET.findall root ".//PubmedArticle")
  | None => []
  end.

(** What a batch that goes through leaves in the trace: the request, the
    pause, then one insertion per record. *)
Definition batch_events (net : remote) (batch : list string) : list event :=
  Efetch (Py.join "," batch) :: Sleep :: map Insert (records_of net batch).

(** What the batch that stops the run leaves in the trace, and the
    exception it stops with: a failed request is not followed by a pause, a
    document that does not parse is. *)
Definition failure_events (net : remote) (batch : list string) : list event :=
  match raise_for_status (batch_response net batch) with
  | inl _ => [Efetch (Py.join "," batch)]
  | inr _ => [Efetch (Py.join "," batch); Sleep]
  end.

Definition failure_of (net : remote) (batch : list string) : Py.exn :=
  match raise_for_status (batch_response net batch) with
  | inl e => e
  | inr _ => Py.ParseError
  end.

(** The outcome of [main] when discovery ends with [o]. *)
Definition after_discovery (o : outcome (list Py.json)) : outcome unit :=
  match o with
  | Return _ => Return tt
  | Raise e => Raise e
  | OutOfFuel => OutOfFuel
  end.

(* ------------------------------------------------------------------------- *)
(** ** Simulated endpoints and sample data *)

(** A search endpoint that holds [ids], reports [count] as their total and
    serves them in pages of the size asked for. *)
Definition simulated_esearch (count : Py.json) (ids : list Py.json)
  : Z -> Z -> response Py.json :=
  fun retmax retstart =>
    Response 200
      (Some (Py.JObj
               [("header", Py.JObj [("type", Py.JStr "esearch")]);
                ("esearchresult",
                 Py.JObj [("count", count);
                          ("retmax", Py.JNum retmax);
                          ("retstart", Py.JNum retstart);
                          ("idlist", Py.JArr (page_of retmax ids retstart))])])).

(** A detail endpoint that answers every request with the same document. *)
Definition constant_efetch (doc : ET.element) : string -> response ET.element :=
  fun _ => Response 200 (Some doc).

Definition leaf (tag : string) (text : string) : ET.element :=
  ET.Element tag [] (Some text) [].

Definition node (tag : string) (children : list ET.element) : ET.element :=
  ET.Element tag [] None children.

Definition sample_ids : list Py.json :=
  [Py.JStr "101"; Py.JStr "102"; Py.JStr "103"].

(** A search answer with a page of identifiers but no total count. *)
Definition esearch_without_count : Z -> Z -> response Py.json :=
  fun _ _ =>
    Response 200
      (Some (Py.JObj [("esearchresult",
                       Py.JObj [("idlist", Py.JArr [Py.JStr "101"])])])).

(** The empty world a first run starts from. *)
Definition fresh : world := World [] [].

(** A service holding the three sample identifiers. *)
Definition sample_search : remote :=
  Remote (simulated_esearch (Py.JStr "3") sample_ids)
         (constant_efetch (node "PubmedArticleSet" [])).

(** A service with nothing that matches the query. *)
Definition empty_search : remote :=
  Remote (simulated_esearch (Py.JStr "0") [])
         (constant_efetch (node "PubmedArticleSet" [])).

(** The identifiers "1", "2", ..., written in decimal. *)
Definition decimal_name (k : nat) : string :=
  NilZero.string_of_uint (Nat.to_uint k).

Definition decimal (k : nat) : Py.json := Py.JStr (decimal_name k).

Definition numbered_names (n : nat) : list string :=
  map decimal_name (seq 1 n).

Definition numbered (n : nat) : list Py.json := map decimal (seq 1 n).

(** A service holding [n] numbered identifiers. *)
Definition numbered_search (n : nat) : remote :=
  Remote (simulated_esearch (decimal n) (numbered n))
         (constant_efetch (node "PubmedArticleSet" [])).

(** A service whose search answer lacks the total count. *)
Definition search_without_count : remote :=
  Remote esearch_without_count (constant_efetch (node "PubmedArticleSet" [])).

(** An [ArticleId] entry of the given type. *)
Definition article_id (id_type : string) (text : option string) : ET.element :=
  ET.Element "ArticleId" [("IdType", id_type)] text [].

(** An [Author] entry; a name part given as [None] has no node. *)
Definition author_entry (forename lastname : option string) : ET.element :=
  node "Author"
    ((match lastname with Some l => [leaf "LastName" l] | None => [] end) ++
     (match forename with Some f => [leaf "ForeName" f] | None => [] end)).

(** A [PubmedArticle] element laid out as EFetch sends it, with the parts
    the samples vary: the identifier, the external identifiers, the
    abstract segments and the authors. *)
Definition pubmed_article (pmid : option string) (ids : list ET.element)
                          (segments : list string) (authors : list ET.element)
  : ET.element :=
  node "PubmedArticle"
    [node "MedlineCitation"
       ((match pmid with Some k => [leaf "PMID" k] | None => [] end) ++
        [node "Article"
           ([node "Journal"
               [leaf "ISSN" "1234-5678";
                node "JournalIssue"
                  [leaf "Volume" "12"; leaf "Issue" "3";
                   node "PubDate" [leaf "Year" "2024"]];
                leaf "Title" "Journal of Examples";
                leaf "ISOAbbreviation" "J Ex"];
             leaf "ArticleTitle" "A title";
             node "Pagination" [leaf "MedlinePgn" "10-20"]] ++
            (match segments with
             | [] => []
             | _ :: _ => [node "Abstract" (map (leaf "AbstractText") segments)]
             end) ++
            [node "AuthorList" authors])]);
     node "PubmedData" [node "ArticleIdList" ids]].

(** The three records of the end-to-end scenario: the second one has neither
    a DOI entry nor an abstract. *)
Definition sample_document : ET.element :=
  node "PubmedArticleSet"
    [pubmed_article (Some "101")
       [article_id "pubmed" (Some "101"); article_id "doi" (Some "10.1/a")]
       ["Background text."; "Methods text."]
       [author_entry (Some "Jane") (Some "Doe");
        author_entry (Some "") (Some "Smith")];
     pubmed_article (Some "102") [article_id "pubmed" (Some "102")] []
       [author_entry (Some "Ann") (Some "Lee")];
     pubmed_article (Some "103")
       [article_id "pubmed" (Some "103"); article_id "doi" (Some "10.1/c")]
       ["Only segment."] []].

Definition sample_service : remote :=
  Remote (simulated_esearch (Py.JStr "3") sample_ids)
         (constant_efetch sample_document).

(** A record element without any [PMID] node. *)
Definition anonymous_article : ET.element :=
  pubmed_article None [article_id "doi" (Some "10.1/x")] ["Text."]
    [author_entry (Some "Jo") (Some "Roe")].

Definition anonymous_service : remote :=
  Remote (simulated_esearch (Py.JStr "1") [Py.JStr "104"])
         (constant_efetch (node "PubmedArticleSet" [anonymous_article])).

(** A record element with nothing in it. *)
Definition bare_article : ET.element := node "PubmedArticle" [].

(** The two authors of the author-joining property, the second one with an
    empty forename node, and the same with no forename node at all. *)
Definition jane_and_smith : ET.element :=
  pubmed_article (Some "201") [] []
    [author_entry (Some "Jane") (Some "Doe");
     author_entry (Some "") (Some "Smith")].

Definition jane_and_smith' : ET.element :=
  pubmed_article (Some "201") [] []
    [author_entry (Some "Jane") (Some "Doe");
     author_entry None (Some "Smith")].

(** A record whose first author entry has no name part (a collective
    author) and whose two DOI entries differ, the last one without text. *)
Definition collective_article : ET.element :=
  pubmed_article (Some "202")
    [article_id "doi" (Some "10.1/first"); article_id "pubmed" (Some "202");
     article_id "doi" None]
    []
    [node "Author" [leaf "CollectiveName" "The Group"];
     author_entry (Some "Ann") (Some "Lee")].

(** A search endpoint that always has more: every page holds an identifier
    and the total it reports lies beyond the next offset. *)
Definition endless_esearch : Z -> Z -> response Py.json :=
  fun retmax retstart =>
    Response 200
      (Some (Py.JObj
               [("esearchresult",
                 Py.JObj [("count", Py.JNum (retstart + retmax + 1));
                          ("idlist", Py.JArr [Py.JStr "1"])])])).

Definition endless_search : remote :=
  Remote endless_esearch (constant_efetch (node "PubmedArticleSet" [])).

(** A search endpoint that is down. *)
Definition unavailable_search : remote :=
  Remote (fun _ _ => Response 503 None) (constant_efetch sample_document).

(** A search endpoint whose identifiers are JSON numbers. *)
Definition numeric_search : remote :=
  Remote (simulated_esearch (Py.JNum 2) [Py.JNum 101; Py.JNum 102])
         (constant_efetch sample_document).

(** A detail endpoint that fails on the batch starting at "201" (status
    500) and answers the others with the sample document. *)
Definition failing_efetch : string -> response ET.element :=
  fun id =>
    if String.prefix "201," id then Response 500 None
    else Response 200 (Some sample_document).

Definition failing_service : remote :=
  Remote (simulated_esearch (decimal 401) (numbered 401)) failing_efetch.

(** The same with an answer that is not well-formed XML. *)
Definition garbled_efetch : string -> response ET.element :=
  fun id =>
    if String.prefix "201," id then Response 200 None
    else Response 200 (Some sample_document).

Definition garbled_service : remote :=
  Remote (simulated_esearch (decimal 401) (numbered 401)) garbled_efetch.

(** A document in which the identifier "101" occurs in two records. *)
Definition repeated_document : ET.element :=
  node "PubmedArticleSet"
    [pubmed_article (Some "101") [article_id "doi" (Some "10.1/first")]
       ["First version."] [author_entry (Some "Jane") (Some "Doe")];
     pubmed_article (Some "101") [article_id "doi" (Some "10.1/second")]
       ["Second version."] [author_entry (Some "Ann") (Some "Lee")]].

(** A record whose abstract has a segment without text between two others,
    and whose title occurs twice. *)
Definition gapped_article : ET.element :=
  node "PubmedArticle"
    [node "MedlineCitation"
       [ET.Element "PMID" [] None [];
        node "Article"
          [leaf "ArticleTitle" "Main title";
           node "Abstract"
             [leaf "AbstractText" "Background text.";
              ET.Element "AbstractText" [] None [];
              leaf "AbstractText" "Methods text."];
           leaf "ArticleTitle" "Other title"]]].

(** A record with a [Journal] element nested in another one, the inner
    title standing first in the document. *)
Definition nested_journal_article : ET.element :=
  node "PubmedArticle"
    [node "Journal"
       [node "Journal" [leaf "Title" "inner"];
        leaf "Title" "outer"]].

(** A total count with a leading file separator (code 28), which
    [str.isspace] takes for white space and [int] does not. *)
Definition separator_count : Py.json :=
  Py.JStr (String (ascii_of_nat 28) "3").

(* ------------------------------------------------------------------------- *)
(** ** The monad and the traces *)

Ltac run_monad :=
  unfold bind, lift, emit, sleep, ret, out_of_fuel, logged in *; simpl in *.

Lemma logged_nil (w : world) : logged w [] = w.
Proof. destruct w; unfold logged; simpl; now rewrite app_nil_r. Qed.

Lemma logged_logged (w : world) (e1 e2 : list event) :
  logged (logged w e1) e2 = logged w (e1 ++ e2).
Proof. unfold logged; simpl; now rewrite app_assoc. Qed.

Lemma search_trace_S (p off : Z) (n : nat) :
  search_trace p off (S (S n)) =
  Esearch p off :: Sleep :: search_trace p (off + p) (S n).
Proof. reflexivity. Qed.

Lemma page_requests_search_trace (p off : Z) (n : nat) :
  page_requests (search_trace p off n) =
  map (fun k => off + Z.of_nat k * p) (seq 0 n).
Proof.
  revert off; induction n as [|n IH]; intros off; [reflexivity|].
  destruct n as [|n].
  - simpl. f_equal. lia.
  - rewrite search_trace_S. cbn [page_requests]. rewrite IH.
    change (seq 0 (S (S n))) with (0%nat :: seq 1 (S n)).
    cbn [map]. rewrite <- seq_shift, map_map. f_equal; [lia|].
    apply map_ext. intros k. lia.
Qed.

Lemma page_requests_length (p off : Z) (n : nat) :
  List.length (page_requests (search_trace p off n)) = n.
Proof. now rewrite page_requests_search_trace, length_map, length_seq. Qed.

(** *** One turn of the loop on a well-formed page *)

Section OneTurn.

Variable net : remote.
Variables (p off total : Z) (count : Py.json) (ids pmids : list Py.json).
Hypothesis Hpage : ok_page (esearch net p off) count ids.

Lemma turn_empty (fuel : nat) (w : world) :
  ids = [] ->
  get_pmids_loop net (S fuel) p pmids off w =
  (Return pmids, logged w [Esearch p off]).
Proof.
  intros ->. destruct Hpage as (Hst & fields & result & Hb & He & Hi & Hc).
  cbn [get_pmids_loop]. unfold response_json. run_monad.
  rewrite Hst, Hb. simpl. rewrite He. simpl. rewrite Hi. reflexivity.
Qed.

Hypothesis Hcount : Py.int count = inr total.

Lemma turn_last (fuel : nat) (w : world) :
  ids <> [] -> total <= off + p ->
  get_pmids_loop net (S fuel) p pmids off w =
  (Return (pmids ++ ids), logged w [Esearch p off]).
Proof.
  intros Hne Hle. destruct Hpage as (Hst & fields & result & Hb & He & Hi & Hc).
  cbn [get_pmids_loop]. unfold response_json. run_monad.
  rewrite Hst, Hb. simpl. rewrite He. simpl. rewrite Hi.
  destruct ids as [|i rest]; [congruence|]. simpl.
  rewrite Hc, Hcount.
  destruct (Z.geb_spec (off + p) total); [reflexivity | lia].
Qed.

Lemma turn_next (fuel : nat) (w : world) :
  ids <> [] -> off + p < total ->
  get_pmids_loop net (S fuel) p pmids off w =
  get_pmids_loop net fuel p (pmids ++ ids) (off + p)
                 (logged w [Esearch p off; Sleep]).
Proof.
  intros Hne Hlt. destruct Hpage as (Hst & fields & result & Hb & He & Hi & Hc).
  cbn [get_pmids_loop]. unfold response_json. run_monad.
  rewrite Hst, Hb. simpl. rewrite He. simpl. rewrite Hi.
  destruct ids as [|i rest]; [congruence|]. simpl.
  rewrite Hc, Hcount.
  destruct (Z.geb_spec (off + p) total); [lia|].
  cbn [db trace]. rewrite <- app_assoc. reflexivity.
Qed.

End OneTurn.

(** *** The loop against an endpoint that answers every page request *)

Lemma pages_from_S (pages : Z -> list Py.json) (p off : Z) (n : nat) :
  pages_from pages p off (S n) = pages off :: pages_from pages p (off + p) n.
Proof.
  unfold pages_from. cbn [seq map]. f_equal.
  - f_equal. lia.
  - rewrite <- seq_shift, map_map. apply map_ext. intros k. f_equal. lia.
Qed.

Lemma ceil_div_upper (t p : Z) : 0 < p -> t <= ceil_div t p * p.
Proof.
  intros Hp. unfold ceil_div.
  pose proof (Z.div_mod (t + p - 1) p ltac:(lia)) as Hd.
  pose proof (Z.mod_pos_bound (t + p - 1) p Hp) as Hm. nia.
Qed.

Lemma ceil_div_least (t p n : Z) : 0 < p -> t <= n * p -> ceil_div t p <= n.
Proof.
  intros Hp Hle. unfold ceil_div.
  assert ((t + p - 1) / p < n + 1); [|lia].
  apply Z.div_lt_upper_bound; nia.
Qed.

Section Paged.

Variable net : remote.
Variables (p total : Z) (count : Py.json) (pages : Z -> list Py.json).
Hypothesis Hp : 0 < p.
Hypothesis Hcount : Py.int count = inr total.
Hypothesis Hpages : forall off, ok_page (esearch net p off) count (pages off).

Lemma stops_at_shift (off : Z) (n : nat) :
  stops_at pages p total off (S (S n)) -> stops_at pages p total (off + p) (S n).
Proof.
  intros (_ & Hgo & Hstop). split; [lia|]. split.
  - intros k Hk. destruct (Hgo (S k) ltac:(lia)) as [H1 H2]. split.
    + replace (off + p + Z.of_nat k * p) with (off + Z.of_nat (S k) * p) by lia.
      exact H1.
    + lia.
  - destruct Hstop as [H|H]; [left|right; lia].
    replace (off + p + (Z.of_nat (S n) - 1) * p)
      with (off + (Z.of_nat (S (S n)) - 1) * p) by lia.
    exact H.
Qed.

Lemma stops_at_unique (off : Z) (n m : nat) :
  stops_at pages p total off n -> stops_at pages p total off m -> n = m.
Proof.
  assert (Hlt : forall a b, stops_at pages p total off a -> stops_at pages p total off b -> ~ (a < b)%nat).
  { intros a b (Ha & _ & Hstop) (_ & Hgo & _) Hab.
    destruct a as [|a]; [lia|].
    destruct (Hgo a ltac:(lia)) as [H1 H2].
    destruct Hstop as [H|H]; [|lia].
    apply H1. rewrite <- H. f_equal. lia. }
  intros Hn Hm.
  pose proof (Hlt n m Hn Hm). pose proof (Hlt m n Hm Hn). lia.
Qed.

Lemma stops_at_exists (m : nat) :
  forall off, (1 <= m)%nat -> total - off <= Z.of_nat m * p ->
  exists n, (n <= m)%nat /\ stops_at pages p total off n.
Proof.
  induction m as [|m IH]; intros off Hm Hle; [lia|].
  destruct (pages off) as [|i rest] eqn:Hpg.
  { exists 1%nat. split; [lia|]. split; [lia|]. split; [intros k Hk; lia|].
    left. rewrite <- Hpg. f_equal. lia. }
  destruct (Z_le_gt_dec total (off + p)) as [Hlast|Hmore].
  { exists 1%nat. split; [lia|]. split; [lia|]. split; [intros k Hk; lia|].
    right. lia. }
  destruct (IH (off + p)) as (n & Hn & Hn1 & Hgo & Hstop); [nia | nia |].
  exists (S n). split; [lia|]. split; [lia|]. split.
  - intros k Hk. destruct k as [|k].
    + split; [|lia]. replace (off + Z.of_nat 0 * p) with off by lia.
      rewrite Hpg. discriminate.
    + destruct (Hgo k ltac:(lia)) as [H1 H2]. split; [|lia].
      replace (off + Z.of_nat (S k) * p) with (off + p + Z.of_nat k * p) by lia.
      exact H1.
  - destruct Hstop as [H|H]; [left|right; lia].
    replace (off + (Z.of_nat (S n) - 1) * p)
      with (off + p + (Z.of_nat n - 1) * p) by lia.
    exact H.
Qed.

Lemma stops_at_bound (off : Z) (n : nat) :
  stops_at pages p total off n -> Z.of_nat n <= Z.max 1 (ceil_div (total - off) p).
Proof.
  intros Hn.
  set (m := Z.to_nat (Z.max 1 (ceil_div (total - off) p))).
  destruct (stops_at_exists m off) as (n' & Hle & Hn').
  - subst m. lia.
  - subst m. rewrite Z2Nat.id by lia.
    pose proof (ceil_div_upper (total - off) p Hp). nia.
  - rewrite (stops_at_unique off n n' Hn Hn'). subst m. lia.
Qed.

Lemma stops_at_full (off : Z) (n : nat) :
  stops_at pages p total off n ->
  Z.of_nat n = Z.max 1 (ceil_div (total - off) p) \/
  pages (off + (Z.of_nat n - 1) * p) = [].
Proof.
  intros Hn. pose proof (stops_at_bound off n Hn) as Hb.
  destruct Hn as (H1 & _ & [Hstop|Hstop]); [now right|left].
  pose proof (ceil_div_least (total - off) p (Z.of_nat n) Hp ltac:(lia)). lia.
Qed.

(** With fuel for [n] turns the loop makes exactly the [n] requests and
    returns what it had, followed by the pages it met. *)
Lemma loop_stops_at (n : nat) :
  forall off fuel pmids w,
  stops_at pages p total off n -> (n <= fuel)%nat ->
  get_pmids_loop net fuel p pmids off w =
  (Return (pmids ++ List.concat (pages_from pages p off n)),
   logged w (search_trace p off n)).
Proof.
  induction n as [|n IH]; intros off fuel pmids w Hn Hfuel.
  { destruct Hn as (H & _); lia. }
  destruct fuel as [|fuel]; [lia|].
  rewrite pages_from_S.
  destruct n as [|n].
  - destruct Hn as (_ & _ & Hstop).
    replace (off + (Z.of_nat 1 - 1) * p) with off in Hstop by lia.
    replace (off + Z.of_nat 1 * p) with (off + p) in Hstop by lia.
    cbn [List.concat pages_from seq map search_trace]. rewrite app_nil_r.
    destruct (pages off) as [|i rest] eqn:Hpg.
    + rewrite app_nil_r.
      apply (turn_empty net p off count [] pmids); [|reflexivity].
      rewrite <- Hpg. apply Hpages.
    + destruct Hstop as [H|H]; [discriminate|].
      rewrite <- Hpg.
      apply (turn_last net p off total count (pages off) pmids);
        auto; rewrite Hpg; discriminate.
  - pose proof Hn as (_ & Hgo & _).
    destruct (Hgo 0%nat ltac:(lia)) as [H1 H2].
    replace (off + Z.of_nat 0 * p) with off in H1 by lia.
    rewrite (turn_next net p off total count (pages off) pmids);
      auto; [|lia].
    rewrite (IH (off + p) fuel); [|now apply stops_at_shift | lia].
    rewrite logged_logged, search_trace_S. cbn [List.concat].
    now rewrite <- app_assoc.
Qed.

End Paged.

(* ------------------------------------------------------------------------- *)
(** ** Pagination: what [get_pmids] requests and returns *)

Lemma firstn_add_split {A : Type} (a b : nat) (l : list A) :
  firstn (a + b) l = firstn a l ++ firstn b (skipn a l).
Proof.
  revert l; induction a as [|a IH]; intros l; [reflexivity|].
  destruct l as [|x l]; simpl.
  - now rewrite firstn_nil.
  - now rewrite IH.
Qed.

Lemma simulated_ok_page (count : Py.json) (ids : list Py.json) (p off : Z) :
  ok_page (simulated_esearch count ids p off) count (page_of p ids off).
Proof.
  split; [reflexivity|].
  eexists; eexists. repeat split; reflexivity.
Qed.

Lemma concat_pages_of (ids : list Py.json) (p : Z) (n : nat) :
  0 < p ->
  forall off : nat,
  List.concat (pages_from (page_of p ids) p (Z.of_nat off) n) =
  firstn (n * Z.to_nat p) (skipn off ids).
Proof.
  intros Hp. induction n as [|n IH]; intros off; [reflexivity|].
  rewrite pages_from_S. cbn [List.concat].
  replace (Z.of_nat off + p) with (Z.of_nat (off + Z.to_nat p)) by lia.
  rewrite IH. unfold page_of. rewrite Nat2Z.id.
  replace (S n * Z.to_nat p)%nat with (Z.to_nat p + n * Z.to_nat p)%nat by lia.
  rewrite firstn_add_split, skipn_skipn.
  now rewrite (Nat.add_comm (Z.to_nat p) off).
Qed.

Lemma page_of_nil (ids : list Py.json) (p off : Z) :
  0 < p -> 0 <= off -> page_of p ids off = [] ->
  Z.of_nat (List.length ids) <= off.
Proof.
  intros Hp Hoff H. unfold page_of in H.
  apply (f_equal (@List.length _)) in H.
  rewrite length_firstn, length_skipn in H. simpl in H. lia.
Qed.

(** C2 as the code has it: against an endpoint that reports the total [T]
    on every page of size [P], [get_pmids] issues [n] page requests, at
    offsets 0, P, 2P, ..., where [n] is at least 1 and at most
    [max 1 (ceil (T / P))], and exactly that many unless the last page
    requested was empty.  The loop stops at the first request whose page is
    empty or whose advanced offset reaches [T], and at no earlier one. *)
Theorem page_requests_count
    (net : remote) (p total : Z) (count : Py.json) (pages : Z -> list Py.json) :
  0 < p ->
  Py.int count = inr total ->
  (forall off, ok_page (esearch net p off) count (pages off)) ->
  exists n : nat,
    stops_at pages p total 0 n /\
    1 <= Z.of_nat n <= Z.max 1 (ceil_div total p) /\
    (Z.of_nat n = Z.max 1 (ceil_div total p) \/
     pages ((Z.of_nat n - 1) * p) = []) /\
    forall fuel w, (n <= fuel)%nat ->
      get_pmids_with net p fuel w =
      (Return (List.concat (pages_from pages p 0 n)),
       logged w (search_trace p 0 n)) /\
      page_requests (search_trace p 0 n) =
      map (fun k => Z.of_nat k * p) (seq 0 n) /\
      List.length (page_requests (search_trace p 0 n)) = n.
Proof.
  intros Hp Hc Hpages.
  destruct (stops_at_exists p total pages Hp
              (Z.to_nat (Z.max 1 (ceil_div total p))) 0)
    as (n & _ & Hn).
  - lia.
  - rewrite Z2Nat.id by lia. pose proof (ceil_div_upper total p Hp). nia.
  - exists n. split; [exact Hn|].
    pose proof (stops_at_bound p total pages Hp 0 n Hn) as Hb.
    pose proof (stops_at_full p total pages Hp 0 n Hn) as Hf.
    rewrite Z.sub_0_r in Hb, Hf. simpl in Hf.
    split; [destruct Hn as (H1 & _); lia|]. split; [exact Hf|].
    intros fuel w Hfuel. split; [|split].
    + unfold get_pmids_with.
      now rewrite (loop_stops_at net p total count pages Hc Hpages n 0 fuel [] w).
    + rewrite page_requests_search_trace. apply map_ext. intros k. lia.
    + apply page_requests_length.
Qed.

Lemma page_requests_count_witness :
  0 < 2 /\
  Py.int (Py.JStr "3") = inr 3 /\
  (forall off, ok_page (esearch sample_search 2 off) (Py.JStr "3")
                       (page_of 2 sample_ids off)) /\
  exists n : nat,
    stops_at (page_of 2 sample_ids) 2 3 0 n /\
    1 <= Z.of_nat n <= Z.max 1 (ceil_div 3 2) /\
    (Z.of_nat n = Z.max 1 (ceil_div 3 2) \/
     page_of 2 sample_ids ((Z.of_nat n - 1) * 2) = []) /\
    forall fuel w, (n <= fuel)%nat ->
      get_pmids_with sample_search 2 fuel w =
      (Return (List.concat (pages_from (page_of 2 sample_ids) 2 0 n)),
       logged w (search_trace 2 0 n)) /\
      page_requests (search_trace 2 0 n) =
      map (fun k => Z.of_nat k * 2) (seq 0 n) /\
      List.length (page_requests (search_trace 2 0 n)) = n.
Proof.
  assert (H2 : 0 < 2) by lia.
  assert (Hc : Py.int (Py.JStr "3") = inr 3) by reflexivity.
  assert (Hp : forall off, ok_page (esearch sample_search 2 off) (Py.JStr "3")
                                   (page_of 2 sample_ids off))
    by (intros off; apply simulated_ok_page).
  split; [exact H2|]. split; [exact Hc|]. split; [exact Hp|].
  exact (page_requests_count sample_search 2 3 (Py.JStr "3")
           (page_of 2 sample_ids) H2 Hc Hp).
Defined.

(** C2 as worded fails when nothing matches: the total is 0, so
    [ceil (T / P)] is 0, yet the loop has to make its first request to
    learn that. *)
Lemma first_request_is_always_made :
  get_pmids empty_search 5 fresh = (Return [], World [] [Esearch 200 0]) /\
  ceil_div 0 200 = 0 /\
  ~ Z.of_nat (List.length
                (page_requests (trace (snd (get_pmids empty_search 5 fresh)))))
    <= ceil_div 0 200.
Proof.
  split; [reflexivity|]. split; [reflexivity|].
  vm_compute. intros H. apply H. reflexivity.
Qed.

(** C1: against a search endpoint that holds the [N] identifiers [ids],
    reports [N] as the total and serves pages of 200, [get_pmids] returns
    exactly [ids]: [N] items, the concatenation of the pages served in the
    order requested, every identifier kept with its multiplicity.  It does
    so with any fuel of at least [max 1 (ceil (N / 200))] turns. *)
Theorem get_pmids_complete
    (net : remote) (count : Py.json) (ids : list Py.json) :
  Py.int count = inr (Z.of_nat (List.length ids)) ->
  (forall off, ok_page (esearch net 200 off) count (page_of 200 ids off)) ->
  let n := Z.to_nat (Z.max 1 (ceil_div (Z.of_nat (List.length ids)) 200)) in
  forall fuel w, (n <= fuel)%nat ->
    get_pmids net fuel w = (Return ids, logged w (search_trace 200 0 n)) /\
    ids = List.concat (pages_from (page_of 200 ids) 200 0 n) /\
    List.length (List.concat (pages_from (page_of 200 ids) 200 0 n)) =
    List.length ids.
Proof.
  intros Hc Hpages n fuel w Hfuel.
  set (N := Z.of_nat (List.length ids)) in *.
  assert (Hp : 0 < 200) by lia.
  assert (Hn : stops_at (page_of 200 ids) 200 N 0 n).
  { destruct (stops_at_exists 200 N (page_of 200 ids) Hp n 0) as (n' & _ & Hn').
    - subst n. lia.
    - subst n. rewrite Z2Nat.id by lia. pose proof (ceil_div_upper N 200 Hp). lia.
    - enough (n' = n) by now subst n'.
      pose proof (stops_at_full 200 N (page_of 200 ids) Hp 0 n' Hn') as Hf.
      rewrite Z.sub_0_r in Hf.
      destruct Hf as [Hf|Hf]; [subst n; lia|].
      apply page_of_nil in Hf; [|lia|destruct Hn' as (H1 & _); lia].
      fold N in Hf. destruct Hn' as (H1 & Hgo & _).
      destruct n' as [|[|n']]; [lia| |].
      + assert (N = 0) by lia. subst n. replace N with 0 by lia. reflexivity.
      + destruct (Hgo n' ltac:(lia)) as [_ H2]. lia. }
  assert (Hall : List.concat (pages_from (page_of 200 ids) 200 0 n) = ids).
  { pose proof (concat_pages_of ids 200 n Hp 0%nat) as Hcat.
    change (Z.of_nat 0) with 0 in Hcat. rewrite Hcat, skipn_0.
    apply firstn_all2. pose proof (ceil_div_upper N 200 Hp). subst n N. lia. }
  split; [|split].
  - unfold get_pmids, get_pmids_with.
    rewrite (loop_stops_at net 200 N count (page_of 200 ids) Hc Hpages n 0 fuel [] w Hn Hfuel).
    now rewrite Hall.
  - now rewrite Hall.
  - now rewrite Hall.
Qed.

Lemma get_pmids_complete_witness :
  Py.int (decimal 401) = inr (Z.of_nat (List.length (numbered 401))) /\
  (forall off, ok_page (esearch (numbered_search 401) 200 off) (decimal 401)
                       (page_of 200 (numbered 401) off)) /\
  get_pmids (numbered_search 401) 3 fresh =
  (Return (numbered 401), logged fresh (search_trace 200 0 3)) /\
  List.length (numbered 401) = 401%nat.
Proof.
  assert (Hc : Py.int (decimal 401) = inr (Z.of_nat (List.length (numbered 401))))
    by (vm_compute; reflexivity).
  assert (Hp : forall off, ok_page (esearch (numbered_search 401) 200 off)
                                   (decimal 401)
                                   (page_of 200 (numbered 401) off))
    by (intros off; apply simulated_ok_page).
  split; [exact Hc|]. split; [exact Hp|]. split.
  - exact (proj1 (get_pmids_complete (numbered_search 401) (decimal 401)
                    (numbered 401) Hc Hp 3%nat fresh
                    ltac:(vm_compute; repeat constructor))).
  - vm_compute; reflexivity.
Defined.

(** [int] on the total count: decimal strings with blanks around them and
    numbers pass, a leading separator character does not, and a page of
    identifiers under such a count ends the run with [ValueError]. *)
Example int_of_count :
  Py.int (Py.JStr " 401 ") = inr 401 /\
  Py.int (Py.JNum 401) = inr 401 /\
  Py.int separator_count = inl Py.ValueError /\
  get_pmids (Remote (simulated_esearch separator_count sample_ids)
                    (constant_efetch (node "PubmedArticleSet" [])))
            5 fresh
  = (Raise Py.ValueError, World [] [Esearch 200 0]).
Proof. repeat split; reflexivity. Qed.

(** The boundary sizes of the pagination property, run on the code. *)
Example get_pmids_boundaries :
  Forall (fun n => fst (get_pmids (numbered_search n) 3 fresh)
                   = Return (numbered n))
         [0; 1; 199; 200; 201; 401]%nat.
Proof. repeat (constructor; [vm_compute; reflexivity|]). constructor. Qed.

Example get_pmids_boundary_requests :
  map (fun n => page_requests (trace (snd (get_pmids (numbered_search n) 3 fresh))))
      [0; 1; 199; 200; 201; 401]%nat
  = [[0]; [0]; [0]; [0]; [0; 200]; [0; 200; 400]].
Proof. vm_compute. reflexivity. Qed.

(* ------------------------------------------------------------------------- *)
(** ** Search answers that lack the expected members *)

(** C3 as the code has it: a successful answer whose body is an object
    without the result envelope, or whose envelope is an object without the
    identifier list or with an empty one, whatever else it carries, ends
    the loop as an empty page: [get_pmids] returns what it has collected
    and raises nothing. *)
Theorem missing_members_end_the_loop
    (net : remote) (fuel : nat) (retmax retstart : Z) (pmids : list Py.json)
    (w : world) (fields : list (string * Py.json)) :
  raise_for_status (esearch net retmax retstart) = inr tt ->
  body (esearch net retmax retstart) = Some (Py.JObj fields) ->
  (Py.lookup "esearchresult" fields = None \/
   exists result,
     Py.lookup "esearchresult" fields = Some (Py.JObj result) /\
     (Py.lookup "idlist" result = None \/
      Py.lookup "idlist" result = Some (Py.JArr []))) ->
  get_pmids_loop net (S fuel) retmax pmids retstart w =
  (Return pmids, logged w [Esearch retmax retstart]).
Proof.
  intros Hst Hb Hcase. cbn [get_pmids_loop]. unfold response_json. run_monad.
  rewrite Hst, Hb. simpl.
  destruct Hcase as [He | (result & He & [Hi|Hi])]; rewrite He; simpl;
    try rewrite Hi; reflexivity.
Qed.

Lemma missing_members_end_the_loop_witness :
  let net := Remote (fun _ _ => Response 200 (Some (Py.JObj [("error", Py.JStr "busy")])))
                    (constant_efetch (node "PubmedArticleSet" [])) in
  raise_for_status (esearch net 200 400) = inr tt /\
  body (esearch net 200 400) = Some (Py.JObj [("error", Py.JStr "busy")]) /\
  get_pmids_loop net 1 200 sample_ids 400 fresh =
  (Return sample_ids, logged fresh [Esearch 200 400]).
Proof.
  intros net. split; [reflexivity|]. split; [reflexivity|].
  apply (missing_members_end_the_loop net 0 200 400 sample_ids fresh
           [("error", Py.JStr "busy")]).
  - reflexivity.
  - reflexivity.
  - left. reflexivity.
Defined.

(** C3 as worded fails for the total count: a page with identifiers and no
    count raises [KeyError] instead of ending the loop.  A body that is
    valid JSON but no object, and a body that is no JSON at all, raise
    too. *)
Lemma missing_count_raises :
  get_pmids search_without_count 5 fresh =
    (Raise Py.KeyError, World [] [Esearch 200 0]) /\
  fst (get_pmids (Remote (fun _ _ => Response 200 (Some (Py.JArr [])))
                         (constant_efetch (node "PubmedArticleSet" [])))
                 5 fresh) = Raise Py.AttributeError /\
  fst (get_pmids (Remote (fun _ _ => Response 200 None)
                         (constant_efetch (node "PubmedArticleSet" [])))
                 5 fresh) = Raise Py.JSONDecodeError.
Proof. repeat split; reflexivity. Qed.

(** A missing count goes unnoticed on a page without identifiers. *)
Example missing_count_on_empty_page :
  get_pmids (Remote (fun _ _ =>
                       Response 200
                         (Some (Py.JObj [("esearchresult",
                                          Py.JObj [("idlist", Py.JArr [])])])))
                    (constant_efetch (node "PubmedArticleSet" [])))
            5 fresh
  = (Return [], World [] [Esearch 200 0]).
Proof. reflexivity. Qed.

(* ------------------------------------------------------------------------- *)
(** ** The store under [INSERT OR IGNORE] *)

Section Store.

Import Sqlite.

Lemma has_pmid_app (k : string) (t u : table) :
  has_pmid k (t ++ u) = has_pmid k t || has_pmid k u.
Proof. unfold has_pmid. apply existsb_app. Qed.

Lemma insert_present (t : table) (r : row) (k : string) :
  pmid r = Some k -> has_pmid k t = true -> insert_or_ignore t r = t.
Proof. intros Hk Hin. unfold insert_or_ignore. now rewrite Hk, Hin. Qed.

Lemma insert_null (t : table) (r : row) :
  pmid r = None -> insert_or_ignore t r = t ++ [r].
Proof. intros Hk. unfold insert_or_ignore. now rewrite Hk. Qed.

(** An insertion keeps every stored row, unchanged and in place. *)
Lemma insert_extends (t : table) (r : row) :
  insert_or_ignore t r = t \/ insert_or_ignore t r = t ++ [r].
Proof.
  unfold insert_or_ignore. destruct (pmid r) as [k|]; [|now right].
  destruct (has_pmid k t); [now left | now right].
Qed.

Lemma insert_incl (t : table) (r x : row) :
  In x t -> In x (insert_or_ignore t r).
Proof.
  intros Hx. destruct (insert_extends t r) as [-> | ->]; [exact Hx|].
  apply in_or_app. now left.
Qed.

Lemma insert_has (t : table) (r : row) (k : string) :
  pmid r = Some k -> has_pmid k (insert_or_ignore t r) = true.
Proof.
  intros Hk. unfold insert_or_ignore. rewrite Hk.
  destruct (has_pmid k t) eqn:Hin; [exact Hin|].
  rewrite has_pmid_app. simpl. rewrite Hk, String.eqb_refl.
  now rewrite orb_true_r.
Qed.

Lemma insert_keeps_key (t : table) (r : row) (k : string) :
  has_pmid k t = true -> has_pmid k (insert_or_ignore t r) = true.
Proof.
  intros Hin. destruct (insert_extends t r) as [-> | ->]; [exact Hin|].
  now rewrite has_pmid_app, Hin.
Qed.

Lemma fold_incl (rows : list row) :
  forall t x, In x t -> In x (fold_left insert_or_ignore rows t).
Proof.
  induction rows as [|r rows IH]; intros t x Hx; [exact Hx|].
  simpl. apply IH. now apply insert_incl.
Qed.

Lemma fold_keeps_key (rows : list row) :
  forall t k, has_pmid k t = true ->
              has_pmid k (fold_left insert_or_ignore rows t) = true.
Proof.
  induction rows as [|r rows IH]; intros t k Hk; [exact Hk|].
  simpl. apply IH. now apply insert_keeps_key.
Qed.

Lemma fold_has (rows : list row) :
  forall t r k, In r rows -> pmid r = Some k ->
                has_pmid k (fold_left insert_or_ignore rows t) = true.
Proof.
  induction rows as [|r' rows IH]; intros t r k Hin Hk; [destruct Hin|].
  simpl. destruct Hin as [-> | Hin].
  - apply fold_keeps_key. now apply insert_has.
  - now apply (IH _ r).
Qed.

Lemma fold_null_in (rows : list row) :
  forall t r, In r rows -> pmid r = None ->
              In r (fold_left insert_or_ignore rows t).
Proof.
  induction rows as [|r' rows IH]; intros t r Hin Hk; [destruct Hin|].
  simpl. destruct Hin as [-> | Hin].
  - apply fold_incl. rewrite insert_null by exact Hk.
    apply in_or_app. right. now left.
  - now apply IH.
Qed.

(** Rows whose keys are all stored already: only the NULL-keyed ones are
    added. *)
Lemma fold_present (rows : list row) :
  forall t,
  (forall r k, In r rows -> pmid r = Some k -> has_pmid k t = true) ->
  fold_left insert_or_ignore rows t = t ++ filter null_pmid rows.
Proof.
  induction rows as [|r rows IH]; intros t Hall; simpl.
  { now rewrite app_nil_r. }
  unfold null_pmid at 1. destruct (pmid r) as [k|] eqn:Hk.
  - rewrite (insert_present t r k Hk) by (apply (Hall r); [now left | exact Hk]).
    apply IH. intros r' k' Hin. apply Hall. now right.
  - rewrite (insert_null t r Hk), IH.
    + now rewrite <- app_assoc.
    + intros r' k' Hin Hk'. rewrite has_pmid_app.
      rewrite (Hall r' k'); [reflexivity | now right | exact Hk'].
Qed.

(** Feeding the same rows a second time. *)
Lemma fold_twice (rows : list row) (t : table) :
  let once := fold_left insert_or_ignore rows t in
  fold_left insert_or_ignore rows once = once ++ filter null_pmid rows /\
  forall r, In r (filter null_pmid rows) -> pmid r = None /\ In r once.
Proof.
  intros once. split.
  - apply fold_present. intros r k Hin Hk. now apply (fold_has rows t r).
  - intros r Hr. apply filter_In in Hr. destruct Hr as [Hin Hnull].
    unfold null_pmid in Hnull. destruct (pmid r) eqn:Hk; [discriminate|].
    split; [reflexivity|]. now apply fold_null_in.
Qed.

End Store.

(* ------------------------------------------------------------------------- *)
(** ** The script never reads the world *)

Lemma oblivious_ret {A : Type} (a : A) : oblivious (ret a).
Proof.
  exists (Return a), [], []. intros [d t]. unfold ret. simpl.
  now rewrite app_nil_r.
Qed.

Lemma oblivious_lift {A : Type} (r : Py.exn + A) : oblivious (lift r).
Proof.
  destruct r as [e|a]; [exists (Raise e), [], [] | exists (Return a), [], []];
    intros [d t]; unfold lift; simpl; now rewrite app_nil_r.
Qed.

Lemma oblivious_out_of_fuel {A : Type} : oblivious (@out_of_fuel A).
Proof.
  exists OutOfFuel, [], []. intros [d t]. unfold out_of_fuel. simpl.
  now rewrite app_nil_r.
Qed.

Lemma oblivious_emit (ev : event) : oblivious (emit ev).
Proof. exists (Return tt), [], [ev]. intros w. reflexivity. Qed.

Lemma oblivious_insert_article (data : Sqlite.row) :
  oblivious (insert_article data).
Proof.
  exists (Return tt), [data], [Insert data]. intros w. reflexivity.
Qed.

Lemma oblivious_bind {A B : Type} (m : M A) (f : A -> M B) :
  oblivious m -> (forall a, oblivious (f a)) -> oblivious (bind m f).
Proof.
  intros (o & rows & evs & Hm) Hf. destruct o as [a|e|].
  - destruct (Hf a) as (o' & rows' & evs' & Hfa).
    exists o', (rows ++ rows'), (evs ++ evs'). intros w.
    unfold bind. rewrite Hm, Hfa. simpl.
    now rewrite fold_left_app, app_assoc.
  - exists (Raise e), rows, evs. intros w. unfold bind. now rewrite Hm.
  - exists OutOfFuel, rows, evs. intros w. unfold bind. now rewrite Hm.
Qed.

Lemma oblivious_for_each {A : Type} (xs : list A) (f : A -> M unit) :
  (forall x, oblivious (f x)) -> oblivious (for_each xs f).
Proof.
  intros Hf. induction xs as [|x xs IH]; simpl.
  - apply oblivious_ret.
  - apply oblivious_bind; [apply Hf | intros _; exact IH].
Qed.

Ltac oblivious_steps :=
  repeat first
    [ apply oblivious_ret
    | apply oblivious_lift
    | apply oblivious_emit
    | apply oblivious_out_of_fuel
    | apply oblivious_insert_article
    | apply oblivious_bind; [|intros ?]
    | match goal with
      | |- oblivious (if ?b then _ else _) => destruct b
      end ].

Lemma oblivious_get_pmids_loop (net : remote) (fuel : nat) :
  forall retmax pmids retstart,
  oblivious (get_pmids_loop net fuel retmax pmids retstart).
Proof.
  induction fuel as [|fuel IH]; intros retmax pmids retstart;
    cbn [get_pmids_loop]; cbv zeta; unfold sleep; oblivious_steps.
  apply IH.
Qed.

Lemma oblivious_fetch_details (net : remote) (pmids : list Py.json) :
  oblivious (fetch_details net pmids).
Proof. unfold fetch_details, sleep; cbv zeta; oblivious_steps. Qed.

Lemma oblivious_parse_articles (xml_data : ET.xml_text) :
  oblivious (parse_articles xml_data).
Proof.
  unfold parse_articles. oblivious_steps.
  apply oblivious_for_each. intros x. apply oblivious_insert_article.
Qed.

Lemma oblivious_main (net : remote) (fuel : nat) : oblivious (main net fuel).
Proof.
  unfold main, create_table, get_pmids, get_pmids_with. oblivious_steps.
  - apply oblivious_get_pmids_loop.
  - apply oblivious_for_each. intros batch.
    apply oblivious_bind; [apply oblivious_fetch_details|].
    intros x. apply oblivious_parse_articles.
Qed.

(* ------------------------------------------------------------------------- *)
(** ** Loading records: [parse_articles] and [insert_article] *)

Lemma insert_article_run (data : Sqlite.row) (w : world) :
  insert_article data w =
  (Return tt, World (Sqlite.insert_or_ignore (db w) data)
                    (trace w ++ [Insert data])).
Proof. reflexivity. Qed.

Lemma for_each_insert {A : Type} (f : A -> Sqlite.row) (xs : list A) :
  forall w,
  for_each xs (fun x => insert_article (f x)) w =
  (Return tt, World (fold_left Sqlite.insert_or_ignore (map f xs) (db w))
                    (trace w ++ map Insert (map f xs))).
Proof.
  induction xs as [|x xs IH]; intros [d t]; simpl.
  - unfold ret. now rewrite app_nil_r.
  - unfold bind. rewrite insert_article_run, IH. simpl.
    now rewrite <- app_assoc.
Qed.

(** A parsed document is loaded record by record, in document order, and
    loading raises nothing. *)
Lemma parse_articles_run (root : ET.element) (w : world) :
  let rows := map article_row (ET.findall root ".//PubmedArticle") in
  parse_articles (Some root) w =
  (Return tt, World (fold_left Sqlite.insert_or_ignore rows (db w))
                    (trace w ++ map Insert rows)).
Proof.
  intros rows. unfold parse_articles, bind, lift. cbn [ET.fromstring].
  apply for_each_insert.
Qed.

Lemma inserted_map_Insert (rows : list Sqlite.row) :
  inserted (map Insert rows) = rows.
Proof. induction rows as [|r rows IH]; simpl; congruence. Qed.

(** How far a second run of [main] against the same service repeats the
    first: it ends the same way, and the table after it is the table after
    the first run followed by copies of the rows already in it whose
    identifier is NULL.  Where no stored row has a NULL identifier the two
    tables are equal; otherwise only the sets of rows are.  Inserting a row
    whose identifier is stored changes nothing, and no insertion touches a
    row that is already there. *)
Theorem pipeline_idempotent (net : remote) (fuel : nat) (w : world) :
  let once := main net fuel w in
  let twice := main net fuel (snd once) in
  fst twice = fst once /\
  (forall r, In r (db (snd twice)) <-> In r (db (snd once))) /\
  (exists again,
     db (snd twice) = db (snd once) ++ again /\
     forall r, In r again -> Sqlite.pmid r = None /\ In r (db (snd once))) /\
  ((forall r, In r (db (snd once)) -> Sqlite.pmid r <> None) ->
   db (snd twice) = db (snd once)) /\
  (forall data k w0,
     Sqlite.pmid data = Some k -> Sqlite.has_pmid k (db w0) = true ->
     db (snd (insert_article data w0)) = db w0) /\
  (forall data w0,
     exists added, db (snd (insert_article data w0)) = db w0 ++ added).
Proof.
  intros once twice.
  destruct (oblivious_main net fuel) as (o & rows & evs & Hrun).
  subst twice once. rewrite (Hrun w). cbn [fst snd]. rewrite Hrun.
  cbn [fst snd db].
  destruct (fold_twice rows (db w)) as [Hagain Hnull]. rewrite Hagain.
  split; [reflexivity|]. split; [|split; [|split; [|split]]].
  - intros r. split; intros Hr.
    + apply in_app_or in Hr. destruct Hr as [Hr|Hr]; [exact Hr|].
      now apply Hnull.
    + apply in_or_app. now left.
  - exists (filter null_pmid rows). split; [reflexivity | exact Hnull].
  - intros Hkeys.
    destruct (filter null_pmid rows) as [|r rest] eqn:Hf.
    + now rewrite app_nil_r.
    + destruct (Hnull r ltac:(now left)) as [Hnone Hin].
      now destruct (Hkeys r Hin).
  - intros data k w0 Hk Hin. rewrite insert_article_run. cbn [snd db].
    now apply (insert_present (db w0) data k).
  - intros data w0. rewrite insert_article_run. cbn [snd db].
    destruct (insert_extends (db w0) data) as [-> | ->].
    + exists []. now rewrite app_nil_r.
    + now exists [data].
Qed.

Lemma pipeline_idempotent_witness :
  let once := main sample_service 5 fresh in
  let twice := main sample_service 5 (snd once) in
  fst once = Return tt /\
  map Sqlite.pmid (db (snd once)) = [Some "101"; Some "102"; Some "103"] /\
  db (snd twice) = db (snd once).
Proof.
  intros once twice. split; [reflexivity|]. split; [reflexivity|].
  pose proof (pipeline_idempotent sample_service 5 fresh) as H.
  cbv zeta in H. destruct H as (_ & _ & _ & H & _).
  apply H. intros r Hr. vm_compute in Hr.
  destruct Hr as [<-|[<-|[<-|[]]]]; discriminate.
Defined.

(** The end-to-end scenario: three identifiers, one batch, three rows; the
    record without a DOI entry and without an abstract gets "" in both
    columns. *)
Example end_to_end :
  let once := main sample_service 5 fresh in
  map (fun r => (Sqlite.pmid r, Sqlite.doi r, Sqlite.abstract r)) (db (snd once))
  = [(Some "101", Some "10.1/a", "Background text. Methods text.");
     (Some "102", Some "", "");
     (Some "103", Some "10.1/c", "Only segment.")] /\
  trace (snd once) =
  [Esearch 200 0; Efetch "101,102,103"; Sleep]
    ++ map Insert (db (snd once)).
Proof. split; reflexivity. Qed.

(** C4, at the input where the code departs from it: a document with one
    record element that has no [PMID] node, fetched by two runs against the
    same service.  The first run stores the record under a NULL identifier;
    the second run stores it again, so the table holds two equal rows
    where the claim, and the docstring of [insert_article] ("idempotent via
    INSERT OR IGNORE"), promise that nothing changes.  The same shows on
    [insert_article] alone. *)
Theorem second_run_stores_anonymous_record_again :
  let row := article_row anonymous_article in
  let once := main anonymous_service 5 fresh in
  let twice := main anonymous_service 5 (snd once) in
  Sqlite.pmid row = None /\
  fst once = Return tt /\ fst twice = Return tt /\
  db (snd once) = [row] /\
  db (snd twice) = [row; row] /\
  db (snd twice) <> db (snd once) /\
  db (snd (insert_article row (snd (insert_article row fresh)))) = [row; row].
Proof.
  cbv zeta. repeat split; try reflexivity.
  intros H. apply (f_equal (@List.length _)) in H. vm_compute in H.
  discriminate.
Qed.

(** A record without identifier is stored again by every run. *)
Example anonymous_rows_accumulate :
  let once := main anonymous_service 5 fresh in
  let twice := main anonymous_service 5 (snd once) in
  map Sqlite.pmid (db (snd once)) = [None] /\
  map Sqlite.pmid (db (snd twice)) = [None; None].
Proof. split; reflexivity. Qed.

(** C7: a record element without a [PMID] node is processed like any other:
    [parse_articles] returns normally, hands one row per record element to
    [insert_article] in document order, the row of that record among them
    with a NULL identifier, and the row is in the table afterwards. *)
Theorem record_without_pmid_is_stored
    (root article : ET.element) (w : world) :
  In article (ET.findall root ".//PubmedArticle") ->
  ET.findall article ".//PMID" = [] ->
  Sqlite.pmid (article_row article) = None /\
  fst (parse_articles (Some root) w) = Return tt /\
  trace (snd (parse_articles (Some root) w)) =
    trace w ++ map Insert (map article_row (ET.findall root ".//PubmedArticle")) /\
  In (article_row article) (inserted (trace (snd (parse_articles (Some root) w)))) /\
  In (article_row article) (db (snd (parse_articles (Some root) w))).
Proof.
  intros Hin Hpmid.
  assert (Hnull : Sqlite.pmid (article_row article) = None).
  { unfold article_row. cbn [Sqlite.pmid]. unfold ET.findtext.
    now rewrite Hpmid. }
  rewrite parse_articles_run. cbn [fst snd db trace].
  split; [exact Hnull|]. split; [reflexivity|]. split; [reflexivity|].
  split.
  - assert (Hsplit : forall t rows,
               In (article_row article) rows ->
               In (article_row article) (inserted (t ++ map Insert rows))).
    { intros t rows Hr. induction t as [|ev t IH]; simpl.
      - now rewrite inserted_map_Insert.
      - destruct ev; simpl; auto. }
    apply Hsplit. now apply in_map.
  - apply fold_null_in; [now apply in_map | exact Hnull].
Qed.

Lemma record_without_pmid_is_stored_witness :
  let root := node "PubmedArticleSet" [anonymous_article] in
  In anonymous_article (ET.findall root ".//PubmedArticle") /\
  ET.findall anonymous_article ".//PMID" = [] /\
  Sqlite.pmid (article_row anonymous_article) = None /\
  fst (parse_articles (Some root) fresh) = Return tt /\
  In (article_row anonymous_article) (db (snd (parse_articles (Some root) fresh))).
Proof.
  intros root.
  assert (Hin : In anonymous_article (ET.findall root ".//PubmedArticle"))
    by (left; reflexivity).
  assert (Hno : ET.findall anonymous_article ".//PMID" = []) by reflexivity.
  destruct (record_without_pmid_is_stored root anonymous_article fresh Hin Hno)
    as (H1 & H2 & _ & _ & H5).
  repeat split; assumption.
Defined.

(* ------------------------------------------------------------------------- *)
(** ** Field extraction: [article_row] *)

Lemma doi_loop_none (entries : list ET.element) :
  forall doi,
  (forall el, In el entries -> is_doi el = false) ->
  doi_loop doi entries = doi.
Proof.
  induction entries as [|el entries IH]; intros doi Hno; [reflexivity|].
  unfold doi_loop in *. simpl. rewrite (Hno el) by now left.
  apply IH. intros el' Hin. apply Hno. now right.
Qed.

Lemma doi_loop_app (before after : list ET.element) (doi : option string) :
  doi_loop doi (before ++ after) = doi_loop (doi_loop doi before) after.
Proof. unfold doi_loop. apply fold_left_app. Qed.

Lemma collect_authors_filter (entries : list ET.element) :
  forall authors,
  collect_authors authors entries =
  authors ++ filter named (map author_name entries).
Proof.
  induction entries as [|e entries IH]; intros authors.
  - simpl. now rewrite app_nil_r.
  - unfold collect_authors in *. simpl. rewrite IH. unfold named at 2.
    destruct (negb (author_name e =? "")%string); [|reflexivity].
    now rewrite <- app_assoc.
Qed.

Lemma authors_of_filter (article : ET.element) :
  authors_of article =
  filter named (map author_name (ET.findall article ".//Author")).
Proof. unfold authors_of. now rewrite collect_authors_filter. Qed.

Lemma first_author_hd (article : ET.element) :
  Sqlite.first_author (article_row article) = hd "" (authors_of article).
Proof.
  unfold article_row. cbn [Sqlite.first_author].
  now destruct (authors_of article).
Qed.

Lemma author_name_spec (author : ET.element) :
  author_name author =
  spec_author_name (ET.findtext author "ForeName" None)
                   (ET.findtext author "LastName" None).
Proof.
  unfold author_name. cbv zeta.
  destruct (ET.findtext author "ForeName" None) as [[|a f]|];
    destruct (ET.findtext author "LastName" None) as [[|b l]|];
    reflexivity.
Qed.

(** C5: for each of the 13 optional columns, a record element that lacks
    the node (for the DOI: an entry of type "doi") gets the empty string in
    that column, whatever the rest of the record holds; extraction is a
    total function and loading a parsed document never raises. *)
Theorem absent_field_defaults
    (article : ET.element) (f : optional_field) :
  absent f article ->
  field_value f (article_row article) = Some "" /\
  forall root w, fst (parse_articles (Some root) w) = Return tt.
Proof.
  intros Habs. split.
  - destruct f; unfold absent in Habs; unfold article_row;
      cbn [field_value Sqlite.publication_year Sqlite.publication_date
           Sqlite.first_author Sqlite.all_authors Sqlite.title Sqlite.issn
           Sqlite.doi Sqlite.pages Sqlite.issue Sqlite.volume Sqlite.journal
           Sqlite.journal_abbreviation Sqlite.abstract];
      unfold ET.findtext, authors_of, abstract_of, doi_of;
      try (rewrite Habs; reflexivity).
    now rewrite doi_loop_none.
  - intros root w. now rewrite parse_articles_run.
Qed.

Lemma absent_field_defaults_witness :
  Forall (fun f => absent f bare_article /\
                   field_value f (article_row bare_article) = Some "")
         [PublicationYear; PublicationDate; FirstAuthor; AllAuthors; Title;
          Issn; Doi; Pages; Issue; Volume; Journal; JournalAbbreviation;
          Abstract].
Proof.
  assert (H : forall f, absent f bare_article)
    by (intros f; destruct f; try reflexivity; intros el []).
  repeat (constructor;
          [split; [apply H
                  | apply (absent_field_defaults bare_article _ (H _))]|]).
  constructor.
Defined.

(** Each default is independent of the other columns: the record of the
    scenario that lacks only the DOI entry and the abstract keeps all its
    other columns. *)
Example only_the_absent_fields_default :
  let article := pubmed_article (Some "102") [article_id "pubmed" (Some "102")] []
                   [author_entry (Some "Ann") (Some "Lee")] in
  article_row article =
  Sqlite.Row (Some "102") "2024" "" "Ann Lee" "Ann Lee" "A title" "1234-5678"
             (Some "") "10-20" "3" "12" "Journal of Examples" "J Ex" "".
Proof. reflexivity. Qed.

(** C6: the name of an author entry is its forename and lastname joined
    with one space, absent parts skipped; the names are collected in source
    order; [first_author] is the first collected name, "" when there is
    none; [all_authors] is the collected names joined with ", ".  The two
    authors ("Jane", "Doe") and ("", "Smith") give "Jane Doe" and
    "Jane Doe, Smith". *)
Theorem authors_joined (article : ET.element) :
  let entries := ET.findall article ".//Author" in
  let authors := authors_of article in
  let row := article_row article in
  (forall author,
     author_name author =
     spec_author_name (ET.findtext author "ForeName" None)
                      (ET.findtext author "LastName" None)) /\
  authors = filter named (map author_name entries) /\
  Sqlite.first_author row = hd "" authors /\
  Sqlite.all_authors row = Py.join ", " authors /\
  Sqlite.first_author (article_row jane_and_smith) = "Jane Doe" /\
  Sqlite.all_authors (article_row jane_and_smith) = "Jane Doe, Smith" /\
  Sqlite.first_author (article_row jane_and_smith') = "Jane Doe" /\
  Sqlite.all_authors (article_row jane_and_smith') = "Jane Doe, Smith".
Proof.
  cbv zeta. split; [exact author_name_spec|].
  split; [apply authors_of_filter|].
  split; [apply first_author_hd|].
  repeat split; reflexivity.
Qed.

(** C9: when several [ArticleId] entries have the type "doi", the DOI
    column is the text of the last of them in document order, whatever the
    earlier ones hold, and it is NULL when that entry has no text. *)
Theorem last_doi_wins
    (article : ET.element) (before after : list ET.element) (el : ET.element) :
  ET.findall article ".//ArticleId" = before ++ el :: after ->
  is_doi el = true ->
  (forall e, In e after -> is_doi e = false) ->
  Sqlite.doi (article_row article) = ET.text el /\
  (ET.text el = None -> Sqlite.doi (article_row article) = None).
Proof.
  intros Hall Hel Hafter.
  assert (H : Sqlite.doi (article_row article) = ET.text el).
  { unfold article_row. cbn [Sqlite.doi]. unfold doi_of.
    rewrite Hall, doi_loop_app.
    change (doi_loop (doi_loop (Some "") before) (el :: after))
      with (doi_loop (if is_doi el then ET.text el
                      else doi_loop (Some "") before) after).
    rewrite Hel. now apply doi_loop_none. }
  split; [exact H | intros Hnone; now rewrite H].
Qed.

Lemma last_doi_wins_witness :
  ET.findall collective_article ".//ArticleId" =
    [article_id "doi" (Some "10.1/first"); article_id "pubmed" (Some "202")] ++
    article_id "doi" None :: [] /\
  is_doi (article_id "doi" None) = true /\
  Sqlite.doi (article_row collective_article) = None.
Proof.
  assert (Hall : ET.findall collective_article ".//ArticleId" =
                 [article_id "doi" (Some "10.1/first");
                  article_id "pubmed" (Some "202")] ++
                 article_id "doi" None :: []) by reflexivity.
  assert (Hdoi : is_doi (article_id "doi" None) = true) by reflexivity.
  split; [exact Hall|]. split; [exact Hdoi|].
  apply (last_doi_wins collective_article _ _ _ Hall Hdoi).
  - intros e [].
  - reflexivity.
Defined.

(** With two DOI entries that both have text, the second one is stored. *)
Example second_doi_is_stored :
  Sqlite.doi (article_row
                (pubmed_article (Some "203")
                   [article_id "doi" (Some "10.1/first");
                    article_id "doi" (Some "10.1/second")] [] []))
  = Some "10.1/second".
Proof. reflexivity. Qed.

(** C10: an author entry whose forename and lastname are both absent or
    empty adds nothing to the author sequence: the record reads as if the
    entry were not there, no collected name is empty, and [first_author] is
    the name of the first entry that has a name part. *)
Theorem nameless_author_omitted
    (article : ET.element) (before after : list ET.element)
    (author : ET.element) :
  ET.findall article ".//Author" = before ++ author :: after ->
  Py.nonempty (ET.findtext author "ForeName" None) = false ->
  Py.nonempty (ET.findtext author "LastName" None) = false ->
  let others := collect_authors [] (before ++ after) in
  author_name author = "" /\
  authors_of article = others /\
  Sqlite.all_authors (article_row article) = Py.join ", " others /\
  Sqlite.first_author (article_row article) = hd "" others /\
  ~ In "" (authors_of article) /\
  Sqlite.first_author (article_row article) =
    hd "" (filter named (map author_name (ET.findall article ".//Author"))).
Proof.
  intros Hall Hfore Hlast others.
  assert (Hname : author_name author = "").
  { unfold author_name. cbv zeta. unfold Py.keep_truthy. cbn [flat_map].
    rewrite Hfore, Hlast.
    destruct (ET.findtext author "ForeName" None);
      destruct (ET.findtext author "LastName" None); reflexivity. }
  assert (Hsame : authors_of article = others).
  { subst others. rewrite authors_of_filter, collect_authors_filter, Hall.
    rewrite !map_app, !filter_app. cbn [map filter app].
    unfold named at 2. now rewrite Hname. }
  split; [exact Hname|]. split; [exact Hsame|].
  split; [unfold article_row; cbn [Sqlite.all_authors]; now rewrite Hsame|].
  split; [now rewrite first_author_hd, Hsame|].
  split.
  - rewrite authors_of_filter. intros Hin. apply filter_In in Hin.
    destruct Hin as [_ Hin]. discriminate.
  - now rewrite first_author_hd, authors_of_filter.
Qed.

Lemma nameless_author_omitted_witness :
  Py.nonempty (ET.findtext (node "Author" [leaf "CollectiveName" "The Group"])
                           "ForeName" None) = false /\
  authors_of collective_article = ["Ann Lee"] /\
  Sqlite.first_author (article_row collective_article) = "Ann Lee" /\
  Sqlite.all_authors (article_row collective_article) = "Ann Lee".
Proof.
  assert (Hall : ET.findall collective_article ".//Author" =
                 [] ++ node "Author" [leaf "CollectiveName" "The Group"]
                    :: [author_entry (Some "Ann") (Some "Lee")])
    by reflexivity.
  assert (Hfore : Py.nonempty
                    (ET.findtext (node "Author" [leaf "CollectiveName" "The Group"])
                                 "ForeName" None) = false) by reflexivity.
  assert (Hlast : Py.nonempty
                    (ET.findtext (node "Author" [leaf "CollectiveName" "The Group"])
                                 "LastName" None) = false) by reflexivity.
  destruct (nameless_author_omitted collective_article _ _ _ Hall Hfore Hlast)
    as (_ & H2 & H3 & H4 & _).
  split; [exact Hfore|]. split; [exact H2|]. split; [exact H4 | exact H3].
Defined.

(* ------------------------------------------------------------------------- *)
(** ** Batches *)

Section Batches.

Context {A : Type}.
Variable size : nat.
Hypothesis Hsize : (1 <= size)%nat.
Variable pmids : list A.

Let chunk (i : nat) : list A := Py.slice pmids i (i + size).

Lemma chunk_firstn (i : nat) : chunk i = firstn size (skipn i pmids).
Proof.
  unfold chunk, Py.slice. f_equal. lia.
Qed.

Lemma range_loop_nonempty (fuel start stop : nat) :
  Py.range_loop fuel start stop size <> [] -> (start < stop)%nat.
Proof.
  destruct fuel as [|fuel]; simpl; [congruence|].
  destruct (Nat.ltb_spec start stop); [auto | congruence].
Qed.

(** The chunks from [start] on make up the rest of the list. *)
Lemma concat_chunks (fuel : nat) :
  forall start,
  (List.length pmids - start <= fuel)%nat ->
  List.concat (map chunk (Py.range_loop fuel start (List.length pmids) size))
  = skipn start pmids.
Proof.
  induction fuel as [|fuel IH]; intros start Hfuel; simpl.
  - symmetry. apply skipn_all2. lia.
  - destruct (Nat.ltb_spec start (List.length pmids)) as [Hlt|Hge].
    + simpl. rewrite IH by lia. rewrite chunk_firstn.
      etransitivity; [|apply (firstn_skipn size)].
      f_equal. rewrite skipn_skipn. f_equal. lia.
    + symmetry. apply skipn_all2. lia.
Qed.

(** Every chunk holds between 1 and [size] items, and [size] of them when
    another chunk follows. *)
Lemma chunk_sizes (fuel : nat) :
  forall start before batch after,
  map chunk (Py.range_loop fuel start (List.length pmids) size)
  = before ++ batch :: after ->
  (1 <= List.length batch <= size)%nat /\
  (after <> [] -> List.length batch = size).
Proof.
  induction fuel as [|fuel IH]; intros start before batch after Heq; simpl in Heq.
  { destruct before; discriminate. }
  destruct (Nat.ltb_spec start (List.length pmids)) as [Hlt|Hge].
  2:{ destruct before; discriminate. }
  simpl in Heq. destruct before as [|b before]; simpl in Heq.
  - injection Heq as Hb Hrest. subst batch.
    rewrite chunk_firstn, length_firstn, length_skipn. split; [lia|].
    intros Hne. rewrite <- Hrest in Hne.
    assert (start + size < List.length pmids)%nat; [|lia].
    apply (range_loop_nonempty fuel). intros Hnil. apply Hne.
    now rewrite Hnil.
  - injection Heq as _ Hrest. now apply (IH (start + size)%nat before).
Qed.

End Batches.

Lemma batches_concat {A : Type} (pmids : list A) :
  List.concat (batches_of batch_size pmids) = pmids.
Proof.
  unfold batches_of, Py.range.
  rewrite (concat_chunks batch_size ltac:(unfold batch_size; lia) pmids); [|lia].
  apply skipn_0.
Qed.

Lemma batches_sizes {A : Type} (pmids : list A) before batch after :
  batches_of batch_size pmids = before ++ batch :: after ->
  (1 <= List.length batch <= 200)%nat /\
  (after <> [] -> List.length batch = 200%nat).
Proof.
  intros Heq.
  apply (chunk_sizes batch_size ltac:(unfold batch_size; lia) pmids
           (List.length pmids) 0%nat before batch after).
  exact Heq.
Qed.

Lemma batches_map {A B : Type} (f : A -> B) (pmids : list A) :
  batches_of batch_size (map f pmids) = map (map f) (batches_of batch_size pmids).
Proof.
  unfold batches_of. rewrite length_map, map_map. apply map_ext.
  intros i. unfold Py.slice. now rewrite skipn_map, firstn_map.
Qed.

(** *** The batch loop of the main block *)

Lemma strs_map_JStr (ids : list string) : Py.strs (map Py.JStr ids) = inr ids.
Proof. induction ids as [|s ids IH]; simpl; [reflexivity | now rewrite IH]. Qed.

Lemma fetch_requests_app (e1 e2 : list event) :
  fetch_requests (e1 ++ e2) = fetch_requests e1 ++ fetch_requests e2.
Proof.
  induction e1 as [|ev e1 IH]; [reflexivity|].
  destruct ev; simpl; now rewrite IH.
Qed.

Lemma fetch_requests_map_Insert (rows : list Sqlite.row) :
  fetch_requests (map Insert rows) = [].
Proof. induction rows as [|r rows IH]; simpl; auto. Qed.

Lemma fetch_details_run (net : remote) (ids : list string) (w : world) :
  let id := Py.join "," ids in
  fetch_details net (map Py.JStr ids) w =
  match raise_for_status (efetch net id) with
  | inl e => (Raise e, logged w [Efetch id])
  | inr _ => (Return (body (efetch net id)), logged w [Efetch id; Sleep])
  end.
Proof.
  intros id. unfold fetch_details. rewrite strs_map_JStr. run_monad.
  fold id. destruct (raise_for_status (efetch net id)); [reflexivity|].
  simpl. now rewrite <- app_assoc.
Qed.

(** The detail requests are made batch by batch, in the order of the
    batches; a failure stops the loop after the request of its batch. *)
Lemma batch_loop_requests (net : remote) (batches : list (list string)) :
  forall w,
  let run := for_each (map (map Py.JStr) batches)
               (fun batch => xml_data <- fetch_details net batch ;;
                             parse_articles xml_data) w in
  exists (n : nat) (evs : list event),
    trace (snd run) = trace w ++ evs /\
    fetch_requests evs = map (Py.join ",") (firstn n batches) /\
    (fst run = Return tt -> n = List.length batches).
Proof.
  set (step := fun batch : list Py.json =>
                 xml_data <- fetch_details net batch ;; parse_articles xml_data).
  induction batches as [|b batches IH]; intros w; cbv zeta.
  - exists 0%nat, []. simpl. unfold ret. simpl.
    rewrite app_nil_r. auto.
  - cbn [map for_each].
    set (id := Py.join "," b).
    set (rest := for_each (map (map Py.JStr) batches) step).
    assert (Hrun :
              (step (map Py.JStr b) ;;; rest) w =
              match raise_for_status (efetch net id) with
              | inl e => (Raise e, logged w [Efetch id])
              | inr _ =>
                  match body (efetch net id) with
                  | Some root =>
                      rest (World
                              (fold_left Sqlite.insert_or_ignore
                                 (map article_row
                                    (ET.findall root ".//PubmedArticle"))
                                 (db w))
                              (trace w ++ [Efetch id; Sleep] ++
                               map Insert
                                 (map article_row
                                    (ET.findall root ".//PubmedArticle"))))
                  | None => (Raise Py.ParseError, logged w [Efetch id; Sleep])
                  end
              end).
    { unfold bind at 1. unfold step. unfold bind at 1.
      rewrite fetch_details_run. fold id.
      destruct (raise_for_status (efetch net id)) as [e|[]]; [reflexivity|].
      destruct (body (efetch net id)) as [root|]; [|reflexivity].
      rewrite parse_articles_run. unfold logged. cbn [db trace].
      now rewrite <- app_assoc. }
    rewrite Hrun. clear Hrun.
    destruct (raise_for_status (efetch net id)) as [e|[]].
    + exists 1%nat, [Efetch id]. simpl. repeat split; auto. discriminate.
    + destruct (body (efetch net id)) as [root|].
      * set (rows := map article_row (ET.findall root ".//PubmedArticle")).
        set (w' := World _ _).
        destruct (IH w') as (n & evs & Htr & Hreq & Hdone).
        exists (S n), ([Efetch id; Sleep] ++ map Insert rows ++ evs).
        split; [|split].
        -- fold rest in Htr. rewrite Htr. subst w'. cbn [trace].
           now rewrite <- !app_assoc.
        -- rewrite !fetch_requests_app, fetch_requests_map_Insert, Hreq.
           reflexivity.
        -- intros Hret. fold rest in Hdone. now rewrite (Hdone Hret).
      * exists 1%nat, [Efetch id; Sleep]. simpl.
        repeat split; auto. discriminate.
Qed.

(** C8: the identifiers returned by [get_pmids] are cut into consecutive
    batches of 200, the last one holding what is left (at least one item);
    the batches put end to end give the list back; and the detail requests
    of [main] are those of the batches, one per batch, in that order: all
    of them when [main] returns, a prefix when a request or a document
    fails. *)
Theorem batches_in_order
    (net : remote) (fuel : nat) (w w1 : world) (ids : list string) :
  get_pmids net fuel w = (Return (map Py.JStr ids), w1) ->
  let batches := batches_of batch_size ids in
  List.concat batches = ids /\
  (forall before batch after,
     batches = before ++ batch :: after ->
     (1 <= List.length batch <= 200)%nat /\
     (after <> [] -> List.length batch = 200%nat)) /\
  exists (n : nat) (evs : list event),
    trace (snd (main net fuel w)) = trace w1 ++ evs /\
    fetch_requests evs = map (Py.join ",") (firstn n batches) /\
    (fst (main net fuel w) = Return tt ->
     fetch_requests evs = map (Py.join ",") batches).
Proof.
  intros Hget batches.
  split; [apply batches_concat|]. split; [apply batches_sizes|].
  assert (Hmain : main net fuel w =
                  for_each (map (map Py.JStr) batches)
                    (fun batch => xml_data <- fetch_details net batch ;;
                                  parse_articles xml_data) w1).
  { unfold main, create_table. unfold bind at 1 2. unfold ret at 1.
    now rewrite Hget, batches_map. }
  rewrite Hmain.
  destruct (batch_loop_requests net batches w1) as (n & evs & Htr & Hreq & Hdone).
  exists n, evs. split; [exact Htr|]. split; [exact Hreq|].
  intros Hret. rewrite Hreq, (Hdone Hret). now rewrite firstn_all.
Qed.

Lemma batches_in_order_witness :
  get_pmids (numbered_search 401) 3 fresh =
    (Return (map Py.JStr (numbered_names 401)),
     logged fresh (search_trace 200 0 3)) /\
  map (@List.length string) (batches_of batch_size (numbered_names 401))
    = [200; 200; 1]%nat /\
  fetch_requests (trace (snd (main (numbered_search 401) 3 fresh))) =
    map (Py.join ",") (batches_of batch_size (numbered_names 401)).
Proof.
  assert (Hget : get_pmids (numbered_search 401) 3 fresh =
                 (Return (map Py.JStr (numbered_names 401)),
                  logged fresh (search_trace 200 0 3)))
    by (vm_compute; reflexivity).
  split; [exact Hget|]. split; [vm_compute; reflexivity|].
  destruct (batches_in_order (numbered_search 401) 3 fresh _
              (numbered_names 401) Hget)
    as (_ & _ & n & evs & Htr & _ & Hdone).
  rewrite Htr, fetch_requests_app. apply Hdone. vm_compute; reflexivity.
Defined.

(** The batches of 401 identifiers and the three detail requests made for
    them. *)
Example batches_of_401 :
  map (fun b => (hd "" b, last b "", List.length b))
      (batches_of batch_size (numbered_names 401))
  = [("1", "200", 200%nat); ("201", "400", 200%nat); ("401", "401", 1%nat)].
Proof. vm_compute. reflexivity. Qed.

(* ------------------------------------------------------------------------- *)
(** ** Discovery against any endpoint *)

(** One turn either ends the loop, with the request as its only event, or
    hands over to the next turn after a pause, the offset advanced by the
    page size. *)
Lemma loop_turn (net : remote) (retmax retstart : Z) (pmids : list Py.json) :
  (exists o, o <> OutOfFuel /\
     forall fuel w, get_pmids_loop net (S fuel) retmax pmids retstart w =
                    (o, logged w [Esearch retmax retstart])) \/
  (exists pmids',
     forall fuel w, get_pmids_loop net (S fuel) retmax pmids retstart w =
                    get_pmids_loop net fuel retmax pmids' (retstart + retmax)
                      (logged w [Esearch retmax retstart; Sleep])).
Proof.
  cbn [get_pmids_loop]. cbv zeta. unfold response_json.
  run_monad.
  destruct (raise_for_status (esearch net retmax retstart)) as [e|[]].
  { left. exists (Raise e). split; [discriminate | reflexivity]. }
  destruct (body (esearch net retmax retstart)) as [data|].
  2:{ left. exists (Raise Py.JSONDecodeError). split; [discriminate | reflexivity]. }
  destruct (Py.get data "esearchresult" (Py.JObj [])) as [e|result].
  { left. exists (Raise e). split; [discriminate | reflexivity]. }
  destruct (Py.get result "idlist" (Py.JArr [])) as [e|ids].
  { left. exists (Raise e). split; [discriminate | reflexivity]. }
  destruct (negb (Py.truthy ids)).
  { left. exists (Return pmids). split; [discriminate | reflexivity]. }
  destruct (Py.extend pmids ids) as [e|pmids'].
  { left. exists (Raise e). split; [discriminate | reflexivity]. }
  destruct (Py.getitem data "esearchresult") as [e|result'].
  { left. exists (Raise e). split; [discriminate | reflexivity]. }
  destruct (Py.getitem result' "count") as [e|count].
  { left. exists (Raise e). split; [discriminate | reflexivity]. }
  destruct (Py.int count) as [e|total].
  { left. exists (Raise e). split; [discriminate | reflexivity]. }
  destruct (retstart + retmax >=? total).
  { left. exists (Return pmids'). split; [discriminate | reflexivity]. }
  right. exists pmids'. intros fuel w. cbn [db trace].
  now rewrite <- app_assoc.
Qed.

Lemma inserted_app (e1 e2 : list event) :
  inserted (e1 ++ e2) = inserted e1 ++ inserted e2.
Proof.
  induction e1 as [|ev e1 IH]; [reflexivity|].
  destruct ev; simpl; now rewrite IH.
Qed.

(** Whatever the endpoint answers, the loop leaves the table alone and logs
    page requests and pauses only. *)
Lemma loop_frame (net : remote) (fuel : nat) :
  forall retmax pmids retstart w,
  exists evs,
    snd (get_pmids_loop net fuel retmax pmids retstart w) = logged w evs /\
    fetch_requests evs = [] /\ inserted evs = [].
Proof.
  induction fuel as [|fuel IH]; intros retmax pmids retstart w.
  - exists []. simpl. unfold out_of_fuel. simpl. now rewrite logged_nil.
  - destruct (loop_turn net retmax retstart pmids)
      as [(o & _ & Hend) | (pmids' & Hnext)].
    + rewrite Hend. now exists [Esearch retmax retstart].
    + rewrite Hnext.
      destruct (IH retmax pmids' (retstart + retmax)
                   (logged w [Esearch retmax retstart; Sleep]))
        as (evs & Hw & Hf & Hi).
      exists ([Esearch retmax retstart; Sleep] ++ evs).
      rewrite Hw, logged_logged. auto.
Qed.

(** When the loop ends, its [n] requests are separated by single pauses and
    the last one is followed by none. *)
Lemma loop_pacing (net : remote) (fuel : nat) :
  forall retmax pmids retstart w,
  fst (get_pmids_loop net fuel retmax pmids retstart w) <> OutOfFuel ->
  exists n,
    (1 <= n <= fuel)%nat /\
    snd (get_pmids_loop net fuel retmax pmids retstart w) =
    logged w (search_trace retmax retstart n).
Proof.
  induction fuel as [|fuel IH]; intros retmax pmids retstart w Hends.
  - now destruct Hends.
  - destruct (loop_turn net retmax retstart pmids)
      as [(o & _ & Hend) | (pmids' & Hnext)].
    + exists 1%nat. rewrite Hend. split; [lia | reflexivity].
    + rewrite Hnext in Hends |- *.
      destruct (IH _ _ _ _ Hends) as (n & Hn & Hw).
      exists (S n). split; [lia|].
      rewrite Hw, logged_logged.
      destruct n as [|n]; [lia|]. now rewrite search_trace_S.
Qed.

(** X1: discovery has no effect on the store.  For every endpoint, page
    size and fuel, [get_pmids_with] leaves the table as it was, requests no
    details and inserts nothing; all it logs is page requests and pauses. *)
Theorem discovery_leaves_the_store (net : remote) (retmax : Z) (fuel : nat)
                                   (w : world) :
  let w' := snd (get_pmids_with net retmax fuel w) in
  db w' = db w /\
  exists evs,
    trace w' = trace w ++ evs /\
    fetch_requests evs = [] /\ inserted evs = [] /\
    Forall (fun ev => ev = Sleep \/ exists off, ev = Esearch retmax off) evs.
Proof.
  cbv zeta. unfold get_pmids_with.
  assert (H : forall fuel pmids retstart w,
             exists evs,
               snd (get_pmids_loop net fuel retmax pmids retstart w)
               = logged w evs /\
               Forall (fun ev => ev = Sleep \/ exists off, ev = Esearch retmax off)
                      evs).
  { clear. induction fuel as [|fuel IH]; intros pmids retstart w.
    - exists []. simpl. unfold out_of_fuel. simpl. now rewrite logged_nil.
    - destruct (loop_turn net retmax retstart pmids)
        as [(o & _ & Hend) | (pmids' & Hnext)].
      + rewrite Hend. exists [Esearch retmax retstart]. split; [reflexivity|].
        constructor; [right; now exists retstart | constructor].
      + rewrite Hnext.
        destruct (IH pmids' (retstart + retmax)
                     (logged w [Esearch retmax retstart; Sleep]))
          as (evs & Hw & Hall).
        exists ([Esearch retmax retstart; Sleep] ++ evs).
        rewrite Hw, logged_logged. split; [reflexivity|].
        constructor; [right; now exists retstart|].
        constructor; [now left | exact Hall]. }
  destruct (loop_frame net fuel retmax [] 0 w) as (evs & Hw & Hf & Hi).
  destruct (H fuel [] 0 w) as (evs' & Hw' & Hall).
  rewrite Hw. cbn [logged db trace]. split; [reflexivity|].
  exists evs. repeat split; auto.
  rewrite Hw in Hw'. unfold logged in Hw'.
  injection Hw' as Heq. apply app_inv_head in Heq. now subst evs'.
Qed.

(** X2: when discovery ends, by returning or by raising, it has made [n]
    page requests at the offsets 0, P, 2P, ... with exactly one pause
    between two consecutive requests and no pause after the last one. *)
Theorem discovery_pacing (net : remote) (retmax : Z) (fuel : nat) (w : world) :
  fst (get_pmids_with net retmax fuel w) <> OutOfFuel ->
  exists n,
    (1 <= n <= fuel)%nat /\
    trace (snd (get_pmids_with net retmax fuel w)) =
      trace w ++ search_trace retmax 0 n /\
    page_requests (search_trace retmax 0 n) =
      map (fun k => Z.of_nat k * retmax) (seq 0 n) /\
    List.length (filter (fun ev => match ev with Sleep => true | _ => false end)
                        (search_trace retmax 0 n)) = (n - 1)%nat /\
    (forall pre, search_trace retmax 0 n <> pre ++ [Sleep]).
Proof.
  intros Hends. unfold get_pmids_with in *.
  destruct (loop_pacing net fuel retmax [] 0 w Hends) as (n & Hn & Hw).
  exists n. split; [exact Hn|]. rewrite Hw. split; [reflexivity|].
  split; [|split].
  - rewrite page_requests_search_trace. apply map_ext. intros k. lia.
  - clear Hw Hends. destruct Hn as [Hn _]. generalize 0.
    induction n as [|n IH]; intros off; [lia|].
    destruct n as [|n]; [reflexivity|].
    rewrite search_trace_S. cbn [filter List.length].
    rewrite IH by lia. lia.
  - clear Hw Hends. destruct Hn as [Hn _]. generalize 0.
    induction n as [|n IH]; intros off pre Heq; [lia|].
    destruct n as [|n].
    + simpl in Heq. destruct pre as [|x [|y pre]]; discriminate.
    + rewrite search_trace_S in Heq.
      destruct pre as [|x [|y pre]]; try discriminate.
      * simpl in Heq. injection Heq as Heq. destruct n; discriminate.
      * simpl in Heq. injection Heq as _ _ Heq.
        apply (IH ltac:(lia) (off + retmax) pre). exact Heq.
Qed.

Lemma discovery_pacing_witness :
  fst (get_pmids_with (numbered_search 401) 200 3 fresh) <> OutOfFuel /\
  exists n,
    (1 <= n <= 3)%nat /\
    trace (snd (get_pmids_with (numbered_search 401) 200 3 fresh)) =
      trace fresh ++ search_trace 200 0 n.
Proof.
  assert (H : fst (get_pmids_with (numbered_search 401) 200 3 fresh) <> OutOfFuel)
    by (vm_compute; discriminate).
  split; [exact H|].
  destruct (discovery_pacing (numbered_search 401) 200 3 fresh H)
    as (n & Hn & Htr & _).
  now exists n.
Defined.

(** X3: when discovery raises, runs out of fuel or finds no identifier, the
    run ends there: [main] ends the same way in the world discovery left,
    with no detail request made, nothing inserted and the table as it
    was. *)
Theorem nothing_to_fetch (net : remote) (fuel : nat) (w : world) :
  (forall pmids, fst (get_pmids net fuel w) = Return pmids -> pmids = []) ->
  main net fuel w =
    (after_discovery (fst (get_pmids net fuel w)), snd (get_pmids net fuel w)) /\
  db (snd (main net fuel w)) = db w /\
  fetch_requests (trace (snd (main net fuel w))) = fetch_requests (trace w) /\
  inserted (trace (snd (main net fuel w))) = inserted (trace w).
Proof.
  intros Hnone.
  assert (Hmain : main net fuel w =
            (after_discovery (fst (get_pmids net fuel w)),
             snd (get_pmids net fuel w))).
  { unfold main, create_table. unfold bind at 1 2. unfold ret at 1.
    destruct (get_pmids net fuel w) as [[pmids|e|] w1] eqn:Hget;
      try reflexivity.
    rewrite (Hnone pmids eq_refl). reflexivity. }
  rewrite Hmain. cbn [snd]. split; [reflexivity|].
  destruct (loop_frame net fuel 200 [] 0 w) as (evs & Hw & Hf & Hi).
  unfold get_pmids, get_pmids_with. rewrite Hw. cbn [logged db trace].
  split; [reflexivity|].
  rewrite fetch_requests_app, inserted_app, Hf, Hi, !app_nil_r. auto.
Qed.

Lemma nothing_to_fetch_witness :
  (forall pmids, fst (get_pmids unavailable_search 5 fresh) = Return pmids ->
                 pmids = []) /\
  main unavailable_search 5 fresh =
    (Raise Py.HTTPError, World [] [Esearch 200 0]) /\
  (forall pmids, fst (get_pmids empty_search 5 fresh) = Return pmids ->
                 pmids = []) /\
  main empty_search 5 fresh = (Return tt, World [] [Esearch 200 0]).
Proof.
  assert (H1 : forall pmids,
             fst (get_pmids unavailable_search 5 fresh) = Return pmids ->
             pmids = []) by (intros pmids H; discriminate H).
  assert (H2 : forall pmids,
             fst (get_pmids empty_search 5 fresh) = Return pmids ->
             pmids = [])
    by (intros pmids H; vm_compute in H; now injection H as <-).
  split; [exact H1|]. split.
  - exact (proj1 (nothing_to_fetch unavailable_search 5 fresh H1)).
  - split; [exact H2|].
    exact (proj1 (nothing_to_fetch empty_search 5 fresh H2)).
Defined.

(** X4: the loop has no bound of its own.  Against an endpoint whose every
    page holds identifiers and reports a total beyond the advanced offset,
    [get_pmids_with] never ends: with any fuel it uses all of it, making
    one request per unit. *)
Theorem discovery_can_run_forever (net : remote) (retmax : Z) :
  (forall off, exists count ids total,
      ok_page (esearch net retmax off) count ids /\
      ids <> [] /\ Py.int count = inr total /\ off + retmax < total) ->
  forall fuel w,
    fst (get_pmids_with net retmax fuel w) = OutOfFuel /\
    List.length (page_requests (trace (snd (get_pmids_with net retmax fuel w))))
    = (List.length (page_requests (trace w)) + fuel)%nat.
Proof.
  intros Hmore fuel w. unfold get_pmids_with.
  generalize (@nil Py.json) as pmids. generalize 0 as off. revert w.
  induction fuel as [|fuel IH]; intros w off pmids.
  - simpl. unfold out_of_fuel. simpl. split; [reflexivity | lia].
  - destruct (Hmore off) as (count & ids & total & Hpage & Hne & Hc & Hlt).
    rewrite (turn_next net retmax off total count ids pmids Hpage Hc fuel w Hne Hlt).
    destruct (IH (logged w [Esearch retmax off; Sleep]) (off + retmax)
                 (pmids ++ ids)) as [Hout Hlen].
    split; [exact Hout|]. rewrite Hlen. unfold logged. cbn [trace].
    assert (Happ : forall t, page_requests (t ++ [Esearch retmax off; Sleep])
                             = page_requests t ++ [off]).
    { induction t as [|ev t IHt]; [reflexivity|].
      destruct ev; simpl; now rewrite IHt. }
    rewrite Happ, length_app. simpl. lia.
Qed.

Lemma discovery_can_run_forever_witness :
  (forall off, exists count ids total,
      ok_page (esearch endless_search 200 off) count ids /\
      ids <> [] /\ Py.int count = inr total /\ off + 200 < total) /\
  forall fuel, fst (get_pmids endless_search fuel fresh) = OutOfFuel.
Proof.
  assert (H : forall off, exists count ids total,
             ok_page (esearch endless_search 200 off) count ids /\
             ids <> [] /\ Py.int count = inr total /\ off + 200 < total).
  { intros off. exists (Py.JNum (off + 200 + 1)), [Py.JStr "1"], (off + 200 + 1).
    split; [|split; [discriminate | split; [reflexivity | lia]]].
    split; [reflexivity|]. eexists; eexists. repeat split; reflexivity. }
  split; [exact H|]. intros fuel.
  exact (proj1 (discovery_can_run_forever endless_search 200 H fuel fresh)).
Defined.

(* ------------------------------------------------------------------------- *)
(** ** Fetching: [fetch_details] *)

Lemma strs_rejects (pmids : list Py.json) (x : Py.json) :
  In x pmids -> (forall s, x <> Py.JStr s) -> Py.strs pmids = inl Py.TypeError.
Proof.
  intros Hin Hx. induction pmids as [|y pmids IH]; [destruct Hin|].
  destruct Hin as [-> | Hin].
  - destruct x; try reflexivity. now destruct (Hx s).
  - simpl. rewrite (IH Hin). now destruct y.
Qed.

Lemma strs_accepts (pmids : list Py.json) (ids : list string) :
  Py.strs pmids = inr ids -> pmids = map Py.JStr ids.
Proof.
  revert ids. induction pmids as [|y pmids IH]; intros ids H; simpl in H.
  - now injection H as <-.
  - destruct y; try discriminate.
    destruct (Py.strs pmids) as [e|l]; [discriminate|].
    injection H as <-. simpl. now rewrite (IH l).
Qed.

Lemma strs_blames (pmids : list Py.json) :
  forall e, Py.strs pmids = inl e ->
  exists x, In x pmids /\ forall s, x <> Py.JStr s.
Proof.
  induction pmids as [|y pmids IH]; intros e Hstrs; [discriminate|].
  destruct y;
    try (eexists; split; [now left | intros s; discriminate]).
  simpl in Hstrs. destruct (Py.strs pmids) as [e'|l]; [|discriminate].
  destruct (IH e' eq_refl) as (x & Hin & Hx).
  exists x. split; [now right | exact Hx].
Qed.

(** X5: a batch with an item that is not a string never reaches the
    network: [fetch_details] raises [TypeError] at the join, before any
    request or pause, and the world is as it was.  Conversely a
    [TypeError] of [fetch_details] always comes from such an item. *)
Theorem fetch_details_needs_strings
    (net : remote) (pmids : list Py.json) (w : world) :
  (forall x, In x pmids -> (forall s, x <> Py.JStr s) ->
             fetch_details net pmids w = (Raise Py.TypeError, w)) /\
  (fst (fetch_details net pmids w) = Raise Py.TypeError ->
   exists x, In x pmids /\ forall s, x <> Py.JStr s).
Proof.
  split.
  - intros x Hin Hx. unfold fetch_details, bind, lift.
    now rewrite (strs_rejects pmids x Hin Hx).
  - intros Hraise.
    destruct (Py.strs pmids) as [e|ids] eqn:Hstrs.
    + now apply (strs_blames pmids e).
    + rewrite (strs_accepts pmids ids Hstrs), fetch_details_run in Hraise.
      destruct (raise_for_status (efetch net (Py.join "," ids))) as [e|[]] eqn:Hst.
      * unfold raise_for_status in Hst.
        destruct ((400 <=? status_code (efetch net (Py.join "," ids))) &&
                  (status_code (efetch net (Py.join "," ids)) <? 600));
          [injection Hst as <-|]; discriminate.
      * discriminate.
Qed.

(** Identifiers that come as JSON numbers stop the run at the first batch,
    with nothing requested from the detail endpoint. *)
Example numeric_identifiers_stop_the_run :
  main numeric_search 5 fresh = (Raise Py.TypeError, World [] [Esearch 200 0]).
Proof. reflexivity. Qed.

(* ------------------------------------------------------------------------- *)
(** ** The store during a run *)

Lemma replayable_ret {A : Type} (a : A) : replayable (ret a).
Proof.
  exists (Return a), []. intros [d t]. unfold ret. simpl.
  now rewrite app_nil_r.
Qed.

Lemma replayable_lift {A : Type} (r : Py.exn + A) : replayable (lift r).
Proof.
  destruct r as [e|a]; [exists (Raise e), [] | exists (Return a), []];
    intros [d t]; unfold lift; simpl; now rewrite app_nil_r.
Qed.

Lemma replayable_out_of_fuel {A : Type} : replayable (@out_of_fuel A).
Proof.
  exists OutOfFuel, []. intros [d t]. unfold out_of_fuel. simpl.
  now rewrite app_nil_r.
Qed.

Lemma replayable_emit (ev : event) :
  (forall data, ev <> Insert data) -> replayable (emit ev).
Proof.
  intros Hev. exists (Return tt), [ev]. intros w. unfold emit.
  destruct ev; try reflexivity. now destruct (Hev data).
Qed.

Lemma replayable_insert_article (data : Sqlite.row) :
  replayable (insert_article data).
Proof. exists (Return tt), [Insert data]. intros w. reflexivity. Qed.

Lemma replayable_bind {A B : Type} (m : M A) (f : A -> M B) :
  replayable m -> (forall a, replayable (f a)) -> replayable (bind m f).
Proof.
  intros (o & evs & Hm) Hf. destruct o as [a|e|].
  - destruct (Hf a) as (o' & evs' & Hfa).
    exists o', (evs ++ evs'). intros w.
    unfold bind. rewrite Hm, Hfa. simpl.
    now rewrite inserted_app, fold_left_app, app_assoc.
  - exists (Raise e), evs. intros w. unfold bind. now rewrite Hm.
  - exists OutOfFuel, evs. intros w. unfold bind. now rewrite Hm.
Qed.

Lemma replayable_for_each {A : Type} (xs : list A) (f : A -> M unit) :
  (forall x, replayable (f x)) -> replayable (for_each xs f).
Proof.
  intros Hf. induction xs as [|x xs IH]; simpl.
  - apply replayable_ret.
  - apply replayable_bind; [apply Hf | intros _; exact IH].
Qed.

Ltac replayable_steps :=
  repeat first
    [ apply replayable_ret
    | apply replayable_lift
    | apply replayable_emit; discriminate
    | apply replayable_out_of_fuel
    | apply replayable_insert_article
    | apply replayable_bind; [|intros ?]
    | match goal with
      | |- replayable (if ?b then _ else _) => destruct b
      end ].

Lemma replayable_get_pmids_loop (net : remote) (fuel : nat) :
  forall retmax pmids retstart,
  replayable (get_pmids_loop net fuel retmax pmids retstart).
Proof.
  induction fuel as [|fuel IH]; intros retmax pmids retstart;
    cbn [get_pmids_loop]; cbv zeta; unfold sleep; replayable_steps.
  apply IH.
Qed.

Lemma replayable_main (net : remote) (fuel : nat) : replayable (main net fuel).
Proof.
  unfold main, create_table, get_pmids, get_pmids_with. replayable_steps.
  - apply replayable_get_pmids_loop.
  - apply replayable_for_each. intros batch.
    unfold fetch_details, parse_articles, sleep. cbv zeta. replayable_steps.
    apply replayable_for_each. intros x. apply replayable_insert_article.
Qed.

(** X6: a run never reads the store.  How [main] ends and everything it
    logs are the same from every starting world, and the table it leaves
    is the starting table with the logged insertions applied in order:
    nothing else writes to it. *)
Theorem run_is_blind_to_the_store (net : remote) (fuel : nat) :
  exists (o : outcome unit) (evs : list event),
  forall w,
    fst (main net fuel w) = o /\
    trace (snd (main net fuel w)) = trace w ++ evs /\
    db (snd (main net fuel w)) =
      fold_left Sqlite.insert_or_ignore (inserted evs) (db w).
Proof.
  destruct (replayable_main net fuel) as (o & evs & Hrun).
  exists o, evs. intros w. now rewrite Hrun.
Qed.

Lemma fetch_details_needs_strings_witness :
  In (Py.JNum 102) [Py.JStr "101"; Py.JNum 102] /\
  fetch_details sample_service [Py.JStr "101"; Py.JNum 102] fresh =
    (Raise Py.TypeError, fresh).
Proof.
  assert (Hin : In (Py.JNum 102) [Py.JStr "101"; Py.JNum 102])
    by (right; now left).
  split; [exact Hin|].
  apply (proj1 (fetch_details_needs_strings sample_service
                  [Py.JStr "101"; Py.JNum 102] fresh) (Py.JNum 102) Hin).
  intros s. discriminate.
Defined.

Section StoreInvariants.

Import Sqlite.

Lemma has_pmid_stored (k : string) (t : table) :
  has_pmid k t = true <-> In k (stored_pmids t).
Proof.
  unfold has_pmid, stored_pmids. rewrite existsb_exists, in_flat_map.
  split; intros (r & Hin & Hr); exists r; (split; [exact Hin|]).
  - destruct (pmid r) as [k'|]; [|discriminate].
    apply String.eqb_eq in Hr. subst. now left.
  - destruct (pmid r) as [k'|]; [|destruct Hr].
    destruct Hr as [<- | []]. apply String.eqb_refl.
Qed.

Lemma has_pmid_row (k : string) (t : table) :
  has_pmid k t = false -> forall x, In x t -> pmid x <> Some k.
Proof.
  intros Hno x Hin Hk.
  assert (H : has_pmid k t = true); [|congruence].
  apply has_pmid_stored. unfold stored_pmids. apply in_flat_map.
  exists x. split; [exact Hin|]. rewrite Hk. now left.
Qed.

(** Inserting rows extends the table at its end, by rows among those
    inserted whose identifier, if any, was not stored. *)
Lemma fold_appends (rows : list row) :
  forall t, exists added,
    fold_left insert_or_ignore rows t = t ++ added /\
    incl added rows /\
    forall r k, In r added -> pmid r = Some k -> has_pmid k t = false.
Proof.
  induction rows as [|r rows IH]; intros t.
  - exists []. simpl. rewrite app_nil_r. split; [reflexivity|].
    split; [apply incl_refl | intros r k []].
  - simpl. destruct (IH (insert_or_ignore t r)) as (added & Heq & Hincl & Hnew).
    unfold insert_or_ignore in *.
    destruct (pmid r) as [k|] eqn:Hk; [destruct (has_pmid k t) eqn:Hin|].
    + exists added. split; [exact Heq|]. split; [now apply incl_tl | exact Hnew].
    + exists (r :: added). rewrite Heq, <- app_assoc. split; [reflexivity|].
      split; [now apply incl_cons; [left | apply incl_tl]|].
      intros x k' [<- | Hx] Hk'.
      * congruence.
      * specialize (Hnew x k' Hx Hk'). rewrite has_pmid_app in Hnew.
        now apply orb_false_iff in Hnew.
    + exists (r :: added). rewrite Heq, <- app_assoc. split; [reflexivity|].
      split; [now apply incl_cons; [left | apply incl_tl]|].
      intros x k' [<- | Hx] Hk'.
      * congruence.
      * specialize (Hnew x k' Hx Hk'). rewrite has_pmid_app in Hnew.
        now apply orb_false_iff in Hnew.
Qed.

Lemma insert_keeps_unique (t : table) (r : row) :
  NoDup (stored_pmids t) -> NoDup (stored_pmids (insert_or_ignore t r)).
Proof.
  intros Hnd. unfold insert_or_ignore.
  destruct (pmid r) as [k|] eqn:Hk; [destruct (has_pmid k t) eqn:Hin|].
  - exact Hnd.
  - unfold stored_pmids. rewrite flat_map_app. simpl. rewrite Hk. simpl.
    apply NoDup_app; [exact Hnd | repeat constructor; intros [] |].
    intros a Ha [<- | []].
    apply has_pmid_stored in Ha. congruence.
  - unfold stored_pmids. rewrite flat_map_app. simpl. rewrite Hk. simpl.
    now rewrite app_nil_r.
Qed.

Lemma fold_keeps_unique (rows : list row) :
  forall t, NoDup (stored_pmids t) ->
            NoDup (stored_pmids (fold_left insert_or_ignore rows t)).
Proof.
  induction rows as [|r rows IH]; intros t Hnd; [exact Hnd|].
  simpl. apply IH. now apply insert_keeps_unique.
Qed.

End StoreInvariants.

(** X7: a run only appends to the table.  Whatever the service answers and
    however the run ends, the rows stored before it are still there, in
    place and unchanged, followed by rows that were handed to
    [insert_article] during the run and whose identifier, when they have
    one, was not stored before. *)
Theorem run_only_appends (net : remote) (fuel : nat) (w : world) :
  exists (evs : list event) (added : list Sqlite.row),
    trace (snd (main net fuel w)) = trace w ++ evs /\
    db (snd (main net fuel w)) = db w ++ added /\
    incl added (inserted evs) /\
    forall r k, In r added -> Sqlite.pmid r = Some k ->
                Sqlite.has_pmid k (db w) = false.
Proof.
  destruct (replayable_main net fuel) as (o & evs & Hrun).
  destruct (fold_appends (inserted evs) (db w)) as (added & Heq & Hincl & Hnew).
  exists evs, added. rewrite Hrun. cbn [snd db trace]. auto.
Qed.

(** X8: the primary key stays a key.  If no identifier is stored twice
    before a run, none is stored twice after it, however the run ends; the
    same holds for a single [insert_article]. *)
Theorem run_keeps_pmids_unique (net : remote) (fuel : nat) (w : world) :
  NoDup (stored_pmids (db w)) ->
  NoDup (stored_pmids (db (snd (main net fuel w)))) /\
  forall data, NoDup (stored_pmids (db (snd (insert_article data w)))).
Proof.
  intros Hnd. split.
  - destruct (replayable_main net fuel) as (o & evs & Hrun).
    rewrite Hrun. cbn [snd db]. now apply fold_keeps_unique.
  - intros data. rewrite insert_article_run. cbn [snd db].
    now apply insert_keeps_unique.
Qed.

Lemma run_keeps_pmids_unique_witness :
  NoDup (stored_pmids (db fresh)) /\
  stored_pmids (db (snd (main sample_service 5 fresh))) = ["101"; "102"; "103"] /\
  NoDup (stored_pmids (db (snd (main sample_service 5 fresh)))).
Proof.
  assert (H : NoDup (stored_pmids (db fresh))) by constructor.
  split; [exact H|]. split; [reflexivity|].
  exact (proj1 (run_keeps_pmids_unique sample_service 5 fresh H)).
Defined.

Lemma has_pmid_none (k : string) (t : Sqlite.table) :
  (forall x, In x t -> Sqlite.pmid x <> Some k) -> Sqlite.has_pmid k t = false.
Proof.
  intros Hno. destruct (Sqlite.has_pmid k t) eqn:Hin; [|reflexivity].
  apply has_pmid_stored in Hin. unfold stored_pmids in Hin.
  apply in_flat_map in Hin. destruct Hin as (x & Hx & Hk).
  destruct (Sqlite.pmid x) as [k'|] eqn:Hpx; [|destruct Hk].
  destruct Hk as [<- | []]. now destruct (Hno x Hx).
Qed.

(** Among rows inserted in order, the first one with a given new
    identifier is the one stored under it. *)
Lemma fold_first_wins (before after : list Sqlite.row) (r : Sqlite.row)
                      (t : Sqlite.table) (k : string) :
  Sqlite.pmid r = Some k ->
  Sqlite.has_pmid k t = false ->
  (forall x, In x before -> Sqlite.pmid x <> Some k) ->
  let stored := fold_left Sqlite.insert_or_ignore (before ++ r :: after) t in
  In r stored /\ forall x, In x stored -> Sqlite.pmid x = Some k -> x = r.
Proof.
  intros Hk Hnew Hbefore stored. subst stored.
  rewrite fold_left_app. cbn [fold_left].
  destruct (fold_appends before t) as (added & Heq & Hincl & _).
  set (t1 := fold_left Sqlite.insert_or_ignore before t) in *.
  assert (Hfree : forall x, In x t1 -> Sqlite.pmid x <> Some k).
  { intros x Hx. rewrite Heq in Hx. apply in_app_or in Hx.
    destruct Hx as [Hx|Hx]; [now apply (has_pmid_row k t) | auto]. }
  assert (Hins : Sqlite.insert_or_ignore t1 r = t1 ++ [r]).
  { unfold Sqlite.insert_or_ignore. now rewrite Hk, (has_pmid_none k t1 Hfree). }
  rewrite Hins.
  destruct (fold_appends after (t1 ++ [r])) as (added' & Heq' & _ & Hnew').
  rewrite Heq'. split.
  - apply in_or_app. left. apply in_or_app. right. now left.
  - intros x Hx Hxk. apply in_app_or in Hx. destruct Hx as [Hx|Hx].
    + apply in_app_or in Hx. destruct Hx as [Hx|[<-|[]]]; [|reflexivity].
      now destruct (Hfree x Hx).
    + specialize (Hnew' x k Hx Hxk). rewrite has_pmid_app in Hnew'.
      apply orb_false_iff in Hnew'. destruct Hnew' as [_ Hr].
      simpl in Hr. now rewrite Hk, String.eqb_refl in Hr.
Qed.

(** X9: first come, first stored.  When several record elements of a
    document carry the same identifier and the identifier is not stored
    yet, the row of the first of them in document order is stored and it
    is the only row under that identifier afterwards: the later ones are
    dropped, not merged. *)
Theorem first_record_wins
    (root article : ET.element) (before after : list ET.element)
    (w : world) (k : string) :
  ET.findall root ".//PubmedArticle" = before ++ article :: after ->
  Sqlite.pmid (article_row article) = Some k ->
  Sqlite.has_pmid k (db w) = false ->
  (forall b, In b before -> Sqlite.pmid (article_row b) <> Some k) ->
  let stored := db (snd (parse_articles (Some root) w)) in
  In (article_row article) stored /\
  forall x, In x stored -> Sqlite.pmid x = Some k -> x = article_row article.
Proof.
  intros Hall Hk Hnew Hbefore stored. subst stored.
  rewrite parse_articles_run. cbn [snd db]. rewrite Hall, map_app. cbn [map].
  apply (fold_first_wins _ _ _ _ k Hk Hnew).
  intros x Hx. apply in_map_iff in Hx. destruct Hx as (b & <- & Hb). auto.
Qed.

Lemma first_record_wins_witness :
  let stored := db (snd (parse_articles (Some repeated_document) fresh)) in
  Sqlite.has_pmid "101" (db fresh) = false /\
  map (fun r => (Sqlite.pmid r, Sqlite.doi r)) stored
    = [(Some "101", Some "10.1/first")] /\
  forall x, In x stored -> Sqlite.pmid x = Some "101" ->
            Sqlite.doi x = Some "10.1/first".
Proof.
  intros stored. split; [reflexivity|]. split; [reflexivity|].
  intros x Hx Hk.
  assert (Hall : ET.findall repeated_document ".//PubmedArticle" =
                 [] ++ pubmed_article (Some "101")
                         [article_id "doi" (Some "10.1/first")]
                         ["First version."]
                         [author_entry (Some "Jane") (Some "Doe")]
                    :: [pubmed_article (Some "101")
                          [article_id "doi" (Some "10.1/second")]
                          ["Second version."]
                          [author_entry (Some "Ann") (Some "Lee")]])
    by reflexivity.
  destruct (first_record_wins repeated_document _ _ _ fresh "101" Hall
              eq_refl eq_refl ltac:(intros b []))
    as [_ Honly].
  now rewrite (Honly x Hx Hk).
Defined.

(** X10: [insert_article] is idempotent exactly on rows that have an
    identifier: handing the same row twice leaves the table as after the
    first time if and only if its identifier is not NULL; a row with a NULL
    identifier is stored once more each time. *)
Theorem insert_article_idempotent_iff (data : Sqlite.row) (w : world) :
  let once := snd (insert_article data w) in
  let twice := snd (insert_article data once) in
  (db twice = db once <-> Sqlite.pmid data <> None) /\
  (Sqlite.pmid data = None -> db twice = db w ++ [data; data]).
Proof.
  cbv zeta. rewrite !insert_article_run. cbn [snd db].
  destruct (Sqlite.pmid data) as [k|] eqn:Hk.
  - split; [|discriminate]. split; [discriminate|]. intros _.
    apply (insert_present _ data k Hk). now apply insert_has.
  - rewrite !(insert_null _ data Hk), <- app_assoc. split; [|reflexivity].
    split; [|now intros H]. intros Heq.
    apply (f_equal (@List.length _)) in Heq.
    rewrite !length_app in Heq. simpl in Heq. lia.
Qed.

(* ------------------------------------------------------------------------- *)
(** ** More on field extraction *)





(** X12: for each column read with [findtext], the first element that
    [findall] yields for the path of the column decides the column: its
    text, or "" when it has none; the other matches are ignored.  For a
    path with several steps that element need not be the first match in
    the document, see [outer_journal_wins]. *)
Theorem first_match_decides
    (article : ET.element) (f : optional_field) (path : string)
    (el : ET.element) (rest : list ET.element) :
  field_path f = Some path ->
  ET.findall article path = el :: rest ->
  field_value f (article_row article) = Some (Py.or_empty (ET.text el)).
Proof.
  intros Hpath Hall.
  destruct f; simpl in Hpath; try discriminate; injection Hpath as <-;
    unfold article_row;
    cbn [field_value Sqlite.publication_year Sqlite.publication_date
         Sqlite.title Sqlite.issn Sqlite.pages Sqlite.issue Sqlite.volume
         Sqlite.journal Sqlite.journal_abbreviation];
    unfold ET.findtext; rewrite Hall;
    destruct (ET.text el) as [[|c s]|]; reflexivity.
Qed.

Lemma first_match_decides_witness :
  field_path Title = Some ".//ArticleTitle" /\
  ET.findall gapped_article ".//ArticleTitle" =
    [leaf "ArticleTitle" "Main title"; leaf "ArticleTitle" "Other title"] /\
  field_value Title (article_row gapped_article) = Some "Main title".
Proof.
  assert (Hall : ET.findall gapped_article ".//ArticleTitle" =
                 [leaf "ArticleTitle" "Main title";
                  leaf "ArticleTitle" "Other title"]) by reflexivity.
  split; [reflexivity|]. split; [exact Hall|].
  exact (first_match_decides gapped_article Title _ _ _ eq_refl Hall).
Defined.

(** The matches of a path with several steps come parent by parent: with a
    [Journal] inside a [Journal], the title of the outer one is taken
    although the title of the inner one stands before it in the
    document. *)
Example outer_journal_wins :
  map ET.text (ET.findall nested_journal_article ".//Title")
    = [Some "inner"; Some "outer"] /\
  map ET.text (ET.findall nested_journal_article ".//Journal/Title")
    = [Some "outer"; Some "inner"] /\
  Sqlite.journal (article_row nested_journal_article) = "outer".
Proof. repeat split; reflexivity. Qed.

(** X13: the identifier of a row is NULL exactly when the record element
    has no [PMID] node below it.  A [PMID] node without text gives the
    empty string, which is a key like any other. *)
Theorem pmid_null_iff_absent (article : ET.element) :
  (Sqlite.pmid (article_row article) = None <->
   ET.findall article ".//PMID" = []) /\
  (forall el rest,
     ET.findall article ".//PMID" = el :: rest ->
     Sqlite.pmid (article_row article) = Some (Py.or_empty (ET.text el))).
Proof.
  unfold article_row. cbn [Sqlite.pmid]. unfold ET.findtext. split.
  - destruct (ET.findall article ".//PMID"); split; congruence.
  - intros el rest ->. now destruct (ET.text el) as [[|c s]|].
Qed.

(** Two records whose [PMID] node is empty share the key "": the second one
    is dropped. *)
Example empty_pmids_collide :
  map Sqlite.pmid
    (db (snd (parse_articles
                (Some (node "PubmedArticleSet" [gapped_article; gapped_article]))
                fresh)))
  = [Some ""].
Proof. reflexivity. Qed.

(* ------------------------------------------------------------------------- *)
(** ** The run as a whole *)

Lemma range_loop_length (step : nat) :
  (1 <= step)%nat ->
  forall fuel start stop,
  (stop - start <= fuel)%nat ->
  List.length (Py.range_loop fuel start stop step) =
  ((stop - start + step - 1) / step)%nat.
Proof.
  intros Hstep. induction fuel as [|fuel IH]; intros start stop Hfuel.
  - simpl. symmetry. apply Nat.div_small. lia.
  - simpl. destruct (Nat.ltb_spec start stop) as [Hlt|Hge].
    + simpl. rewrite IH by lia.
      replace (stop - start + step - 1)%nat
        with ((stop - start - 1) + 1 * step)%nat by lia.
      rewrite Nat.div_add by lia.
      destruct (Nat.le_gt_cases step (stop - start)) as [Hbig|Hsmall].
      * replace (stop - (start + step) + step - 1)%nat
          with (stop - start - 1)%nat by lia.
        now rewrite Nat.add_1_r.
      * replace (stop - (start + step) + step - 1)%nat with (step - 1)%nat by lia.
        rewrite !Nat.div_small by lia. reflexivity.
    + simpl. symmetry. apply Nat.div_small. lia.
Qed.

(** X14: [n] identifiers are cut into [ceil (n / 200)] batches: none when
    there is no identifier, and never an empty one. *)
Theorem batches_count {A : Type} (pmids : list A) :
  List.length (batches_of batch_size pmids) =
    ((List.length pmids + 199) / 200)%nat /\
  (batches_of batch_size pmids = [] <-> pmids = []) /\
  Forall (fun batch => batch <> []) (batches_of batch_size pmids).
Proof.
  assert (Hlen : List.length (batches_of batch_size pmids) =
                 ((List.length pmids + 199) / 200)%nat).
  { unfold batches_of, Py.range, batch_size.
    rewrite length_map, (range_loop_length 200) by lia.
    f_equal. lia. }
  split; [exact Hlen|]. split.
  - split; intros H.
    + rewrite H in Hlen.
      destruct pmids as [|x pmids]; [reflexivity|]. exfalso.
      assert (Hpos : (1 <= (List.length (x :: pmids) + 199) / 200)%nat)
        by (apply Nat.div_le_lower_bound; simpl; lia).
      rewrite <- Hlen in Hpos. simpl in Hpos. lia.
    + now subst pmids.
  - apply Forall_forall. intros batch Hin Hnil.
    apply in_split in Hin. destruct Hin as (before & after & Heq).
    destruct (batches_sizes pmids before batch after Heq) as [Hsize _].
    subst batch. simpl in Hsize. lia.
Qed.

(** A batch that goes through: one request, one pause, one insertion per
    record of the answer. *)
Lemma batch_goes_through (net : remote) (batch : list string) (w : world) :
  batch_ok net batch ->
  (xml_data <- fetch_details net (map Py.JStr batch) ;; parse_articles xml_data) w
  = (Return tt,
     World (fold_left Sqlite.insert_or_ignore (records_of net batch) (db w))
           (trace w ++ batch_events net batch)).
Proof.
  intros [Hst Hbody]. unfold bind. rewrite fetch_details_run.
  unfold batch_ok, batch_events, records_of, batch_response in *.
  rewrite Hst.
  destruct (body (efetch net (Py.join "," batch))) as [root|]; [|now destruct Hbody].
  rewrite parse_articles_run. unfold logged. cbn [db trace].
  now rewrite <- app_assoc.
Qed.

(** A batch that does not: the run stops at the request, or at the
    document after the pause, with nothing inserted. *)
Lemma batch_fails (net : remote) (batch : list string) (w : world) :
  ~ batch_ok net batch ->
  (xml_data <- fetch_details net (map Py.JStr batch) ;; parse_articles xml_data) w
  = (Raise (failure_of net batch), logged w (failure_events net batch)).
Proof.
  intros Hbad. unfold bind. rewrite fetch_details_run.
  unfold batch_ok, failure_of, failure_events, batch_response in *.
  destruct (raise_for_status (efetch net (Py.join "," batch))) as [e|[]];
    [reflexivity|].
  destruct (body (efetch net (Py.join "," batch))) as [root|]; [|reflexivity].
  destruct Hbad. split; [reflexivity | discriminate].
Qed.

Lemma batch_loop_through (net : remote) (good rest : list (list string)) :
  Forall (batch_ok net) good ->
  forall w,
  for_each (map (map Py.JStr) (good ++ rest))
    (fun batch => xml_data <- fetch_details net batch ;; parse_articles xml_data) w
  = for_each (map (map Py.JStr) rest)
      (fun batch => xml_data <- fetch_details net batch ;; parse_articles xml_data)
      (World (fold_left Sqlite.insert_or_ignore
                (flat_map (records_of net) good) (db w))
             (trace w ++ flat_map (batch_events net) good)).
Proof.
  induction 1 as [|b good Hb Hgood IH]; intros w.
  - simpl. rewrite app_nil_r. now destruct w.
  - cbn [app map for_each flat_map]. unfold bind at 1.
    rewrite (batch_goes_through net b w Hb), IH. cbn [db trace].
    now rewrite fold_left_app, <- app_assoc.
Qed.

Lemma main_after_discovery (net : remote) (fuel : nat) (w w1 : world)
                           (ids : list string) :
  get_pmids net fuel w = (Return (map Py.JStr ids), w1) ->
  db w1 = db w /\
  main net fuel w =
  for_each (map (map Py.JStr) (batches_of batch_size ids))
    (fun batch => xml_data <- fetch_details net batch ;; parse_articles xml_data)
    w1.
Proof.
  intros Hget. split.
  - destruct (loop_frame net fuel 200 [] 0 w) as (evs & Hw & _).
    unfold get_pmids, get_pmids_with in Hget. rewrite Hget in Hw.
    cbn [snd] in Hw. now rewrite Hw.
  - unfold main, create_table. unfold bind at 1 2. unfold ret at 1.
    now rewrite Hget, batches_map.
Qed.

(** X15: a run in which every batch is answered well goes through.  When
    discovery returns the identifiers [ids] and each batch of them gets a
    success status and a well-formed document, [main] returns; after the
    events of discovery the trace holds, batch by batch in order, the
    request, the pause and one insertion per record of the answer in
    document order; the table is the starting one with exactly those rows
    inserted in that order. *)
Theorem run_goes_through
    (net : remote) (fuel : nat) (w w1 : world) (ids : list string) :
  get_pmids net fuel w = (Return (map Py.JStr ids), w1) ->
  Forall (batch_ok net) (batches_of batch_size ids) ->
  let batches := batches_of batch_size ids in
  main net fuel w =
    (Return tt,
     World (fold_left Sqlite.insert_or_ignore
              (flat_map (records_of net) batches) (db w))
           (trace w1 ++ flat_map (batch_events net) batches)) /\
  inserted (flat_map (batch_events net) batches)
    = flat_map (records_of net) batches /\
  fetch_requests (flat_map (batch_events net) batches)
    = map (Py.join ",") batches.
Proof.
  intros Hget Hok batches.
  destruct (main_after_discovery net fuel w w1 ids Hget) as [Hdb Hmain].
  split; [|split].
  - rewrite Hmain. fold batches. rewrite <- (app_nil_r batches) at 1.
    rewrite (batch_loop_through net batches [] Hok w1), Hdb. reflexivity.
  - clear. induction batches as [|b batches IH]; [reflexivity|].
    cbn [flat_map]. rewrite inserted_app, IH. unfold batch_events.
    cbn [inserted]. now rewrite inserted_map_Insert.
  - clear. induction batches as [|b batches IH]; [reflexivity|].
    cbn [flat_map map]. rewrite fetch_requests_app, IH. unfold batch_events.
    cbn [fetch_requests app]. now rewrite fetch_requests_map_Insert.
Qed.

(** X16: the first batch that is not answered well stops the run.  The
    rows of the batches before it stay in the table, nothing of it or of
    the later batches is inserted, and no later batch is requested; the run
    ends with the HTTP error of the request, or with [ParseError] after the
    pause when the status was fine and the document is not well-formed. *)
Theorem run_stops_at_first_failure
    (net : remote) (fuel : nat) (w w1 : world) (ids : list string)
    (good rest : list (list string)) (bad : list string) :
  get_pmids net fuel w = (Return (map Py.JStr ids), w1) ->
  batches_of batch_size ids = good ++ bad :: rest ->
  Forall (batch_ok net) good ->
  ~ batch_ok net bad ->
  main net fuel w =
    (Raise (failure_of net bad),
     World (fold_left Sqlite.insert_or_ignore
              (flat_map (records_of net) good) (db w))
           (trace w1 ++ flat_map (batch_events net) good
                     ++ failure_events net bad)).
Proof.
  intros Hget Hsplit Hgood Hbad.
  destruct (main_after_discovery net fuel w w1 ids Hget) as [Hdb Hmain].
  rewrite Hmain, Hsplit, (batch_loop_through net good (bad :: rest) Hgood w1).
  cbn [map for_each]. unfold bind at 1.
  rewrite (batch_fails net bad _ Hbad). unfold logged. cbn [db trace].
  now rewrite Hdb, <- app_assoc.
Qed.

Lemma run_goes_through_witness :
  get_pmids sample_service 5 fresh =
    (Return (map Py.JStr ["101"; "102"; "103"]), World [] [Esearch 200 0]) /\
  Forall (batch_ok sample_service) (batches_of batch_size ["101"; "102"; "103"]) /\
  fst (main sample_service 5 fresh) = Return tt /\
  stored_pmids (db (snd (main sample_service 5 fresh))) = ["101"; "102"; "103"] /\
  trace (snd (main sample_service 5 fresh)) =
    [Esearch 200 0; Efetch "101,102,103"; Sleep]
    ++ map Insert (records_of sample_service ["101"; "102"; "103"]).
Proof.
  assert (Hget : get_pmids sample_service 5 fresh =
                 (Return (map Py.JStr ["101"; "102"; "103"]),
                  World [] [Esearch 200 0])) by reflexivity.
  assert (Hok : Forall (batch_ok sample_service)
                       (batches_of batch_size ["101"; "102"; "103"])).
  { change (batches_of batch_size ["101"; "102"; "103"])
      with [["101"; "102"; "103"]].
    constructor; [|constructor]. split; [reflexivity | discriminate]. }
  split; [exact Hget|]. split; [exact Hok|].
  destruct (run_goes_through sample_service 5 fresh _ _ Hget Hok) as [Hmain _].
  rewrite Hmain. repeat split; reflexivity.
Defined.

Lemma run_stops_at_first_failure_witness :
  let ids := numbered_names 401 in
  batches_of batch_size ids =
    [firstn 200 ids] ++ firstn 200 (skipn 200 ids) :: [skipn 400 ids] /\
  ~ batch_ok failing_service (firstn 200 (skipn 200 ids)) /\
  fst (main failing_service 3 fresh) = Raise Py.HTTPError /\
  stored_pmids (db (snd (main failing_service 3 fresh))) = ["101"; "102"; "103"] /\
  List.length (fetch_requests (trace (snd (main failing_service 3 fresh)))) = 2%nat.
Proof.
  intros ids.
  assert (Hget : get_pmids failing_service 3 fresh =
                 (Return (map Py.JStr ids), logged fresh (search_trace 200 0 3)))
    by (vm_compute; reflexivity).
  assert (Hsplit : batches_of batch_size ids =
                   [firstn 200 ids] ++ firstn 200 (skipn 200 ids) :: [skipn 400 ids])
    by (vm_compute; reflexivity).
  assert (Hgood : Forall (batch_ok failing_service) [firstn 200 ids]).
  { constructor; [|constructor].
    split; [vm_compute; reflexivity | vm_compute; discriminate]. }
  assert (Hbad : ~ batch_ok failing_service (firstn 200 (skipn 200 ids))).
  { intros [Hst _]. vm_compute in Hst. discriminate. }
  split; [exact Hsplit|]. split; [exact Hbad|].
  rewrite (run_stops_at_first_failure failing_service 3 fresh _ ids _ _ _
             Hget Hsplit Hgood Hbad).
  repeat split; vm_compute; reflexivity.
Defined.

(** The same run against a detail endpoint whose second answer is not
    well-formed: the pause is taken, then [ParseError]. *)
Example garbled_answer_stops_the_run :
  fst (main garbled_service 3 fresh) = Raise Py.ParseError /\
  stored_pmids (db (snd (main garbled_service 3 fresh))) = ["101"; "102"; "103"] /\
  skipn 7 (filter (fun ev => match ev with Insert _ | Esearch _ _ => false
                                         | _ => true end)
                  (trace (snd (main garbled_service 3 fresh))))
  = [].
Proof. repeat split; vm_compute; reflexivity. Qed.

Lemma search_trace_last (p off : Z) (n : nat) :
  (1 <= n)%nat ->
  exists pre, search_trace p off n =
              pre ++ [Esearch p (off + (Z.of_nat n - 1) * p)].
Proof.
  revert off. induction n as [|n IH]; intros off Hn; [lia|].
  destruct n as [|n].
  - exists []. replace (off + (Z.of_nat 1 - 1) * p) with off by lia.
    reflexivity.
  - destruct (IH (off + p) ltac:(lia)) as (pre & Hpre).
    exists (Esearch p off :: Sleep :: pre).
    rewrite search_trace_S, Hpre.
    replace (off + p + (Z.of_nat (S n) - 1) * p)
      with (off + (Z.of_nat (S (S n)) - 1) * p) by lia.
    reflexivity.
Qed.

(** Whatever becomes of a batch of strings, the first thing done for it is
    its request. *)
Lemma batch_first_event (net : remote) (batch : list string) (w : world) :
  exists o w',
    (xml_data <- fetch_details net (map Py.JStr batch) ;;
     parse_articles xml_data) w = (o, w') /\
    exists evs, trace w' = trace w ++ Efetch (Py.join "," batch) :: evs.
Proof.
  unfold bind. rewrite fetch_details_run.
  destruct (raise_for_status (efetch net (Py.join "," batch))) as [e|[]].
  - eexists; eexists. split; [reflexivity|]. now exists [].
  - destruct (body (efetch net (Py.join "," batch))) as [root|].
    + rewrite parse_articles_run. eexists; eexists. split; [reflexivity|].
      cbn [logged db trace]. eexists. rewrite <- app_assoc. reflexivity.
    + eexists; eexists. split; [reflexivity|]. now exists [Sleep].
Qed.

(** X17: the pause that follows a page request is skipped after the last
    one.  In every run that found identifiers, the last page request is
    followed at once by the first detail request, for the first 200
    identifiers, with no pause in between. *)
Theorem no_pause_between_phases
    (net : remote) (fuel : nat) (w w1 : world) (ids : list string) :
  get_pmids net fuel w = (Return (map Py.JStr ids), w1) ->
  ids <> [] ->
  exists pre off post,
    trace (snd (main net fuel w)) =
    trace w ++ pre
      ++ Esearch 200 off :: Efetch (Py.join "," (firstn 200 ids)) :: post.
Proof.
  intros Hget Hne.
  destruct (main_after_discovery net fuel w w1 ids Hget) as [_ Hmain].
  assert (Hends : fst (get_pmids_loop net fuel 200 [] 0 w) <> OutOfFuel).
  { unfold get_pmids, get_pmids_with in Hget. now rewrite Hget. }
  destruct (loop_pacing net fuel 200 [] 0 w Hends) as (n & Hn & Hw).
  unfold get_pmids, get_pmids_with in Hget. rewrite Hget in Hw. cbn [snd] in Hw.
  destruct (search_trace_last 200 0 n ltac:(lia)) as (pre & Hpre).
  assert (Hfirst : exists others,
             batches_of batch_size ids = firstn 200 ids :: others).
  { destruct ids as [|i ids]; [now destruct Hne|].
    unfold batches_of, Py.range, batch_size. cbn [List.length Py.range_loop].
    change (0 <? S (List.length ids))%nat with true. cbn [map].
    eexists. reflexivity. }
  destruct Hfirst as (others & Hfirst).
  rewrite Hmain, Hfirst. cbn [map for_each].
  set (rest := for_each (map (map Py.JStr) others) _).
  assert (Hrest : oblivious rest).
  { apply oblivious_for_each. intros batch.
    apply oblivious_bind; [apply oblivious_fetch_details|].
    intros x. apply oblivious_parse_articles. }
  destruct Hrest as (o & rows & evs & Hrest).
  destruct (batch_first_event net (firstn 200 ids) w1)
    as (o1 & w2 & Hstep & evs1 & Htr).
  exists pre, (0 + (Z.of_nat n - 1) * 200).
  unfold bind at 1. cbv beta. rewrite Hstep.
  assert (Hw2 : trace w2 = trace w ++ pre
                  ++ Esearch 200 (0 + (Z.of_nat n - 1) * 200)
                  :: Efetch (Py.join "," (firstn 200 ids)) :: evs1).
  { rewrite Htr, Hw. unfold logged. cbn [trace].
    now rewrite Hpre, <- !app_assoc. }
  destruct o1 as [[]|e|].
  - rewrite Hrest. cbn [snd trace]. rewrite Hw2. exists (evs1 ++ evs).
    now rewrite <- !app_assoc.
  - exists evs1. exact Hw2.
  - exists evs1. exact Hw2.
Qed.

Lemma no_pause_between_phases_witness :
  get_pmids sample_service 5 fresh =
    (Return (map Py.JStr ["101"; "102"; "103"]), World [] [Esearch 200 0]) /\
  ["101"; "102"; "103"] <> [] /\
  firstn 2 (trace (snd (main sample_service 5 fresh))) =
    [Esearch 200 0; Efetch "101,102,103"] /\
  exists pre off post,
    trace (snd (main sample_service 5 fresh)) =
    trace fresh ++ pre ++ Esearch 200 off :: Efetch "101,102,103" :: post.
Proof.
  assert (Hget : get_pmids sample_service 5 fresh =
                 (Return (map Py.JStr ["101"; "102"; "103"]),
                  World [] [Esearch 200 0])) by reflexivity.
  assert (Hne : ["101"; "102"; "103"] <> []) by discriminate.
  split; [exact Hget|]. split; [exact Hne|]. split; [reflexivity|].
  exact (no_pause_between_phases sample_service 5 fresh _ _ Hget Hne).
Defined.

(** The fuel only bounds the number of turns: once the loop ends with
    some fuel, it ends in the same way with any larger fuel. *)
Lemma loop_result_is_fuel_independent
    (net : remote) (retmax : Z) (fuel : nat) (w : world) :
  fst (get_pmids_with net retmax fuel w) <> OutOfFuel ->
  forall more,
    get_pmids_with net retmax (fuel + more) w = get_pmids_with net retmax fuel w.
Proof.
  unfold get_pmids_with. generalize (@nil Py.json) as pmids.
  generalize 0 as retstart. revert w.
  induction fuel as [|fuel IH]; intros w retstart pmids Hends more.
  - now destruct Hends.
  - change (S fuel + more)%nat with (S (fuel + more)).
    destruct (loop_turn net retmax retstart pmids)
      as [(o & _ & Hend) | (pmids' & Hnext)].
    + now rewrite !Hend.
    + rewrite !Hnext in *. now apply IH.
Qed.

